(** * Homey MCP server: the tool handlers and their response envelopes

    A shallow embedding of the two Homey MCP servers of the repository:

    - [Homey]: [homey-mcp-server/homey.ts], the HTTP-backed server
      (token provider, authenticated request helper, the [list_devices] and
      [toggle_device] tools, the [control-device] prompt);
    - [HomeyMock]: the script with the class [HomeyApiClient] and the tools
      [list_devices], [toggle_device] and [list_flows].

    [Js] holds the part of JavaScript both servers rely on: values as
    [JSON.parse] produces them, truthiness, property reads, template-literal
    conversion and [JSON.stringify]. *)

From Stdlib Require Import String Ascii List ZArith NArith Bool Lia DecimalString.
Import ListNotations.
Open Scope string_scope.
Set Warnings "-register-all".

(* ===================================================================== *)
(** ** JavaScript values                                                  *)
(* ===================================================================== *)

Module Js.

(** Strings are byte strings (UTF-8).  Every operation the servers apply to
    a string (concatenation, comparison, JSON quoting) acts on the bytes
    below 128 only and copies the others. *)

(** The double quote, written by its code so that literals stay readable. *)
Definition dquote : string := String "034"%char EmptyString.

(** A number.  The servers never calculate: a number is tested for its type
    and truthiness and converted to text.  An integral number is kept as an
    integer, printed in decimal (as JavaScript does below 10^21); any other
    finite number is kept as the text [Number.prototype.toString] gives for
    it, e.g. [0.75].  NaN and the infinities do not occur in JSON. *)
Inductive JsNumber : Type :=
  | NInt (z : Z)
  | NFrac (repr : string).

Inductive JsValue : Type :=
  | VUndefined
  | VNull
  | VBool (b : bool)
  | VNum (n : JsNumber)
  | VStr (s : string)
  | VArr (items : list JsValue)
  | VObj (props : list (string * JsValue)).

(** What a [throw] or a rejected promise carries: an instance of [Error]
    (TypeError and SyntaxError included) with its message, or another
    value. *)
Inductive Thrown : Type :=
  | ThrownError (message : string)
  | ThrownValue (v : JsValue).

Definition Z_toString (z : Z) : string := NilZero.string_of_int (Z.to_int z).
Definition N_toString (n : N) : string := NilZero.string_of_uint (N.to_uint n).
Definition nat_toString (n : nat) : string := N_toString (N.of_nat n).

Definition Number_toString (n : JsNumber) : string :=
  match n with
  | NInt z => Z_toString z
  | NFrac repr => repr
  end.

Definition Boolean_toString (b : bool) : string :=
  if b then "true" else "false".

(** [!!v] *)
Definition truthy (v : JsValue) : bool :=
  match v with
  | VUndefined | VNull => false
  | VBool b => b
  | VNum (NInt z) => negb (Z.eqb z 0)
  | VNum (NFrac _) => true
  | VStr s => negb (String.eqb s "")
  | VArr _ | VObj _ => true
  end.

(** [!!s] for a string *)
Definition truthy_string (s : string) : bool := negb (String.eqb s "").

(** [v === undefined || v === null] *)
Definition nullish (v : JsValue) : bool :=
  match v with
  | VUndefined | VNull => true
  | _ => false
  end.

(** [a || b] *)
Definition or_else (a b : JsValue) : JsValue := if truthy a then a else b.

Fixpoint lookup (key : string) (props : list (string * JsValue)) : option JsValue :=
  match props with
  | [] => None
  | (k, v) :: rest => if String.eqb k key then Some v else lookup key rest
  end.

(** The index a property key denotes in an array of [len] elements: the key
    must be the canonical decimal text of an index below [len]. *)
Definition array_index (key : string) (len : nat) : option nat :=
  find (fun i => String.eqb (nat_toString i) key) (seq 0 len).

(** [v[key]] for a [v] that is neither undefined nor null, as far as the
    servers can observe it: the own properties of an object (listed in
    enumeration order, keys distinct) and the elements of an array.  The
    properties that prototypes and string or array wrappers add ([length],
    [toString], ...) are primitives or functions that have no property
    [value], [message] or any other the servers read by a fixed name; a
    computed key reaches them only in [capabilitiesObj?.[capability]?.value],
    which then yields undefined exactly as for a missing key. *)
Definition get (v : JsValue) (key : string) : JsValue :=
  match v with
  | VObj props =>
      match lookup key props with
      | Some x => x
      | None => VUndefined
      end
  | VArr items =>
      match array_index key (length items) with
      | Some i => nth i items VUndefined
      | None => VUndefined
      end
  | _ => VUndefined
  end.

(** The message of V8's TypeError for a property read on undefined or null. *)
Definition cannot_read (v : JsValue) (key : string) : string :=
  "Cannot read properties of " ++
  (match v with VNull => "null" | _ => "undefined" end) ++
  " (reading '" ++ key ++ "')".

(** [v.key]: a TypeError on undefined and null. *)
Definition read (v : JsValue) (key : string) : Thrown + JsValue :=
  if nullish v then inl (ThrownError (cannot_read v key)) else inr (get v key).

(** [v?.key] *)
Definition read_opt (v : JsValue) (key : string) : JsValue :=
  if nullish v then VUndefined else get v key.

(** *** JSON.stringify *)

Definition hex_digit (n : N) : ascii :=
  if (n <? 10)%N then ascii_of_N (48 + n) else ascii_of_N (87 + n).

(** The escape of one character inside a JSON string (QuoteJSONString). *)
Definition quote_char (c : ascii) : string :=
  let n := N_of_ascii c in
  if (n =? 8)%N then "\b"
  else if (n =? 9)%N then "\t"
  else if (n =? 10)%N then "\n"
  else if (n =? 12)%N then "\f"
  else if (n =? 13)%N then "\r"
  else if (n =? 34)%N then "\" ++ dquote
  else if (n =? 92)%N then "\\"
  else if (n <? 32)%N then
    "\u00" ++ String (hex_digit (n / 16)) (String (hex_digit (n mod 16)) "")
  else String c "".

Fixpoint quote_chars (s : string) : string :=
  match s with
  | EmptyString => ""
  | String c rest => quote_char c ++ quote_chars rest
  end.

Definition QuoteJSONString (s : string) : string :=
  dquote ++ quote_chars s ++ dquote.

Fixpoint join (sep : string) (parts : list string) : string :=
  match parts with
  | [] => ""
  | [p] => p
  | p :: rest => p ++ sep ++ join sep rest
  end.

Definition newline : string := String "010"%char EmptyString.

(** The text of an object or array from the texts of its members
    (the end of SerializeJSONObject and SerializeJSONArray). *)
Definition wrap (opening closing gap stepback : string) (partial : list string)
  : string :=
  match partial with
  | [] => opening ++ closing
  | _ =>
      if String.eqb gap "" then opening ++ join "," partial ++ closing
      else
        let indent := stepback ++ gap in
        opening ++ newline ++ indent ++
        join ("," ++ newline ++ indent) partial ++
        newline ++ stepback ++ closing
  end.

(** SerializeJSONProperty: [None] is JavaScript's undefined result.  A
    property whose value serialises to undefined is left out of its object;
    such an element of an array is written [null]. *)
Fixpoint SerializeJSONProperty (gap stepback : string) (v : JsValue)
  {struct v} : option string :=
  match v with
  | VUndefined => None
  | VNull => Some "null"
  | VBool b => Some (Boolean_toString b)
  | VNum n => Some (Number_toString n)
  | VStr s => Some (QuoteJSONString s)
  | VArr items =>
      let indent := stepback ++ gap in
      let partial :=
        (fix elements (l : list JsValue) : list string :=
           match l with
           | [] => []
           | x :: rest =>
               match SerializeJSONProperty gap indent x with
               | Some s => s
               | None => "null"
               end :: elements rest
           end) items in
      Some (wrap "[" "]" gap stepback partial)
  | VObj props =>
      let indent := stepback ++ gap in
      let partial :=
        (fix members (l : list (string * JsValue)) : list string :=
           match l with
           | [] => []
           | (k, x) :: rest =>
               match SerializeJSONProperty gap indent x with
               | Some s =>
                   (QuoteJSONString k ++ ":" ++
                    (if String.eqb gap "" then "" else " ") ++ s)
                   :: members rest
               | None => members rest
               end
           end) props in
      Some (wrap "{" "}" gap stepback partial)
  end.

(** The keys an object keeps when it is serialised. *)
Definition serialized_keys (props : list (string * JsValue)) : list string :=
  map fst
    (filter (fun kv =>
               match SerializeJSONProperty "" "" (snd kv) with
               | Some _ => true
               | None => false
               end) props).

Fixpoint spaces (n : nat) : string :=
  match n with
  | O => ""
  | S m => String " "%char (spaces m)
  end.

(** [JSON.stringify(v, null, space)], [space] a number of blanks (at most 10);
    [JSON.stringify(v)] is [JSON_stringify v 0]. *)
Definition JSON_stringify (v : JsValue) (space : nat) : option string :=
  SerializeJSONProperty (spaces (Nat.min space 10)) "" v.

(** [JSON.stringify] of an object, which is always a string. *)
Definition JSON_stringify_object (props : list (string * JsValue)) (space : nat)
  : string :=
  match JSON_stringify (VObj props) space with
  | Some s => s
  | None => ""
  end.

(** [haystack.includes(needle)] *)
Fixpoint includes (haystack needle : string) : bool :=
  String.prefix needle haystack ||
  match haystack with
  | EmptyString => false
  | String _ rest => includes rest needle
  end.

End Js.

Import Js.

(* ===================================================================== *)
(** ** Asynchronous functions                                             *)
(* ===================================================================== *)

(** An [async] function over a state [S]: it changes the state and either
    throws (its promise rejects) or returns (its promise resolves). *)
Definition Effect (S A : Type) : Type := S -> (Thrown + A) * S.

Definition ret {S A} (a : A) : Effect S A := fun s => (inr a, s).

Definition throw {S A} (e : Thrown) : Effect S A := fun s => (inl e, s).

Definition bind {S A B} (m : Effect S A) (k : A -> Effect S B) : Effect S B :=
  fun s =>
    match m s with
    | (inr a, s') => k a s'
    | (inl e, s') => (inl e, s')
    end.

(** A synchronous expression that may throw, inside an async function. *)
Definition lift {S A} (r : Thrown + A) : Effect S A := fun s => (r, s).

(** [try { body } catch (error) { handler }] *)
Definition try_catch {S A} (body : Effect S A) (handler : Thrown -> Effect S A)
  : Effect S A :=
  fun s =>
    match body s with
    | (inr a, s') => (inr a, s')
    | (inl e, s') => handler e s'
    end.

Declare Scope async_scope.
Delimit Scope async_scope with async.
Notation "x <- m ;; k" := (bind m (fun x => k))
  (at level 61, m at next level, right associativity) : async_scope.

(** Expressions that may throw without awaiting anything. *)
Definition bind_sum {A B} (r : Thrown + A) (k : A -> Thrown + B) : Thrown + B :=
  match r with
  | inr a => k a
  | inl e => inl e
  end.

Declare Scope throwing_scope.
Delimit Scope throwing_scope with throwing.
Notation "x <- r ;; k" := (bind_sum r (fun x => k))
  (at level 61, r at next level, right associativity) : throwing_scope.

(* ===================================================================== *)
(** ** The tool-response envelope                                         *)
(* ===================================================================== *)

Module Mcp.

(** [{ type: 'text', text: ... }] *)
Record ContentBlock : Type := { type : string; text : string }.

(** [{ content: [...], isError?: boolean }]: [isError = None] is an envelope
    without the property. *)
Record Envelope : Type := { content : list ContentBlock; isError : option bool }.

(** An envelope with one text block. *)
Definition text_envelope (t : string) (is_error : option bool) : Envelope :=
  {| content := [{| type := "text"; text := t |}]; isError := is_error |}.

(** The text of the first content block, the JSON payload of the envelope. *)
Definition payload_text (e : Envelope) : string :=
  match content e with
  | b :: _ => text b
  | [] => ""
  end.

End Mcp.

Import Mcp.

(* ===================================================================== *)
(** ** homey.ts                                                           *)
(* ===================================================================== *)

Module Homey.

(** The three variables the module reads from [process.env]. *)
Record ProcessEnv : Type := {
  env_HOMEY_CLIENT_ID : option string;
  env_HOMEY_CLIENT_SECRET : option string;
  env_HOMEY_API_URL : option string
}.

(** [process.env.X || fallback] *)
Definition env_or (x : option string) (fallback : string) : string :=
  match x with
  | Some s => if truthy_string s then s else fallback
  | None => fallback
  end.

(** The [RequestInit] handed to [fetch], with the URL. *)
Record Request : Type := {
  url : string;
  method : string;
  headers : list (string * string);
  body : option string
}.

(** A response of the upstream API: the fields and the results of the
    methods [text()] and [json()] that the request helper uses; each of the
    two methods resolves or rejects.  The helper tests [ok] only; a response
    of the network has [ok] exactly when its status is 200 to 299, a test
    double sets the two fields apart. *)
Record Response : Type := {
  ok : bool;
  status : N;
  statusText : string;
  body_text : Thrown + string;
  body_json : Thrown + JsValue
}.

(** What the promise of [fetch] settles to. *)
Inductive FetchResult : Type :=
  | Fulfilled (response : Response)
  | Rejected (reason : Thrown).

(** One call of [fetch] and its result. *)
Record Exchange : Type := { request : Request; outcome : FetchResult }.

(** The upstream API (or a test double of [fetch]): its answer to a request
    may depend on every earlier call. *)
Definition Upstream : Type := list Exchange -> Request -> FetchResult.

(** An asynchronous function of this server: its state is the log of the
    calls of [fetch]. *)
Definition Async (A : Type) : Type := Effect (list Exchange) A.

(** [array.map(f)] for a callback that may throw. *)
Fixpoint map_throwing {A B} (f : A -> Thrown + B) (l : list A)
  : Thrown + list B :=
  match l with
  | [] => inr []
  | x :: rest =>
      (y <- f x ;;
       ys <- map_throwing f rest ;;
       inr (y :: ys))%throwing
  end.

(** [error instanceof Error ? error.message : 'Unknown error'] *)
Definition error_message (error : Thrown) : string :=
  match error with
  | ThrownError message => message
  | ThrownValue _ => "Unknown error"
  end.

(** The argument [value] of the tool: [boolean | number | string]. *)
Inductive Primitive : Type :=
  | PBool (b : bool)
  | PNum (n : JsNumber)
  | PStr (s : string).

Definition Primitive_value (p : Primitive) : JsValue :=
  match p with
  | PBool b => VBool b
  | PNum n => VNum n
  | PStr s => VStr s
  end.

(** [`${p}`] *)
Definition Primitive_toString (p : Primitive) : string :=
  match p with
  | PBool b => Boolean_toString b
  | PNum n => Number_toString n
  | PStr s => s
  end.

(** An optional string argument: [None] is undefined. *)
Definition optional_value (o : option string) : JsValue :=
  match o with
  | Some s => VStr s
  | None => VUndefined
  end.

(** [`${o}`] *)
Definition optional_toString (o : option string) : string :=
  match o with
  | Some s => s
  | None => "undefined"
  end.

(** The arguments of [toggle_device] as the handler receives them. *)
Record ToggleArgs : Type := {
  deviceId : option string;
  capability : option string;
  value : option Primitive
}.

(** [deviceData.result.capabilitiesObj?.[capability]?.value] *)
Definition current_value (deviceData : JsValue) (capability : string)
  : Thrown + JsValue :=
  (result <- read deviceData "result" ;;
   capabilitiesObj <- read result "capabilitiesObj" ;;
   inr (read_opt (read_opt capabilitiesObj capability) "value"))%throwing.

(** The callback of [data.result.map] in [list_devices]. *)
Definition normalize_device (device : JsValue) : Thrown + JsValue :=
  (id <- read device "id" ;;
   name <- read device "name" ;;
   zone <- read device "zone" ;;
   class <- read device "class" ;;
   capabilities <- read device "capabilities" ;;
   capabilitiesObj <- read device "capabilitiesObj" ;;
   inr (VObj [("id", id);
              ("name", name);
              ("zone", or_else (read_opt zone "name") (VStr "Unknown"));
              ("class", or_else class (VStr "Unknown"));
              ("capabilities", or_else capabilities (VArr []));
              ("state", or_else capabilitiesObj (VObj []))]))%throwing.

(** [data.result.map(callback)]: [result] must be an array. *)
Definition map_devices (result : JsValue) : Thrown + list JsValue :=
  match result with
  | VArr items => map_throwing normalize_device items
  | VUndefined | VNull => inl (ThrownError (cannot_read result "map"))
  | _ => inl (ThrownError "data.result.map is not a function")
  end.

Section Server.

Variable env : ProcessEnv.
Variable upstream : Upstream.

Definition HOMEY_CLIENT_ID : string := env_or (env_HOMEY_CLIENT_ID env) "".
Definition HOMEY_CLIENT_SECRET : string := env_or (env_HOMEY_CLIENT_SECRET env) "".
Definition HOMEY_API_URL : string :=
  env_or (env_HOMEY_API_URL env) "https://api.athom.com".

(** [fetch(url, options)]: the call is logged with what it settles to. *)
Definition fetch (req : Request) : Async Response :=
  fun log =>
    let result := upstream log req in
    let log' := (log ++ [{| request := req; outcome := result |}])%list in
    match result with
    | Fulfilled response => (inr response, log')
    | Rejected reason => (inl reason, log')
    end.

Definition getHomeyToken : Async string :=
  if negb (truthy_string HOMEY_CLIENT_ID) || negb (truthy_string HOMEY_CLIENT_SECRET)
  then throw (ThrownError
    "HOMEY_CLIENT_ID and HOMEY_CLIENT_SECRET environment variables must be set")
  else ret HOMEY_CLIENT_SECRET.

(** The request [homeyApiRequest] builds once it has the token. *)
Definition build_request (token endpoint method_ : string) (body_ : JsValue)
  : Request :=
  {| url := HOMEY_API_URL ++ endpoint;
     method := method_;
     headers := [("Authorization", "Bearer " ++ token);
                 ("Content-Type", "application/json")];
     body := if truthy body_ && negb (String.eqb method_ "GET")
             then JSON_stringify body_ 0
             else None |}.

(** The message of the error for a response that is not [ok] and whose
    body was read as [errorText]. *)
Definition failure_message (response : Response) (errorText : string) : string :=
  "Homey API request failed: " ++ N_toString (status response) ++ " " ++
  statusText response ++ " - " ++ errorText.

(** [homeyApiRequest(endpoint, method, body)]; an omitted [body] is
    [VUndefined], an omitted [method] is ["GET"]. *)
Definition homeyApiRequest (endpoint method_ : string) (body_ : JsValue)
  : Async JsValue :=
  (token <- getHomeyToken ;;
   response <- fetch (build_request token endpoint method_ body_) ;;
   if negb (ok response) then
     errorText <- lift (body_text response) ;;
     throw (ThrownError (failure_message response errorText))
   else lift (body_json response))%async.

(** The [try] block of the [list_devices] handler. *)
Definition list_devices_try : Async Envelope :=
  (data <- homeyApiRequest "/api/devices" "GET" VUndefined ;;
   result <- lift (read data "result") ;;
   devices <- lift (map_devices result) ;;
   ret (text_envelope
          (JSON_stringify_object
             [("devices", VArr devices);
              ("count", VNum (NInt (Z.of_nat (length devices))))] 2)
          None))%async.

(** The [catch] block of the [list_devices] handler. *)
Definition list_devices_catch (error : Thrown) : Async Envelope :=
  let errorMessage := error_message error in
  ret (text_envelope
         (JSON_stringify_object
            [("error", VStr "Failed to list Homey devices");
             ("details", VStr errorMessage)] 0)
         (Some true)).

Definition list_devices : Async Envelope :=
  try_catch list_devices_try list_devices_catch.

(** The [try] block of the [toggle_device] handler. *)
Definition toggle_device_try (args : ToggleArgs) : Async Envelope :=
  let deviceId_ := deviceId args in
  let capability_ :=
    match capability args with Some c => c | None => "onoff" end in
  (_ <- (if negb (truthy (optional_value deviceId_))
         then throw (ThrownError "deviceId is required")
         else ret tt) ;;
   targetValue <-
     match value args with
     | Some v => ret v
     | None =>
         deviceData <- homeyApiRequest
           ("/api/devices/" ++ optional_toString deviceId_) "GET" VUndefined ;;
         currentValue <- lift (current_value deviceData capability_) ;;
         match currentValue with
         | VBool b => ret (PBool (negb b))
         | _ =>
             throw (ThrownError
               ("Cannot toggle capability " ++ dquote ++ capability_ ++ dquote ++
                " - current value is not boolean"))
         end
     end ;;
   _ <- homeyApiRequest
     ("/api/devices/" ++ optional_toString deviceId_ ++ "/capabilities/" ++
      capability_)
     "PUT" (VObj [("value", Primitive_value targetValue)]) ;;
   ret (text_envelope
          (JSON_stringify_object
             [("success", VBool true);
              ("deviceId", optional_value deviceId_);
              ("capability", VStr capability_);
              ("value", Primitive_value targetValue);
              ("message",
               VStr ("Successfully set " ++ capability_ ++ " to " ++
                     Primitive_toString targetValue))] 0)
          None))%async.

(** The [catch] block of the [toggle_device] handler. *)
Definition toggle_device_catch (args : ToggleArgs) (error : Thrown)
  : Async Envelope :=
  let errorMessage := error_message error in
  ret (text_envelope
         (JSON_stringify_object
            [("error", VStr "Failed to toggle Homey device");
             ("details", VStr errorMessage);
             ("deviceId", optional_value (deviceId args))] 0)
         (Some true)).

Definition toggle_device (args : ToggleArgs) : Async Envelope :=
  try_catch (toggle_device_try args) (toggle_device_catch args).

End Server.

(** *** Observing a call *)

(** Both credentials are set, so that [getHomeyToken] returns. *)
Definition has_credentials (env : ProcessEnv) : bool :=
  truthy_string (HOMEY_CLIENT_ID env) && truthy_string (HOMEY_CLIENT_SECRET env).

(** The calls of [fetch] a computation added to the log [before]. *)
Definition issued (before after : list Exchange) : list Exchange :=
  skipn (length before) after.

(** A read request: method GET. *)
Definition is_read (x : Exchange) : bool := String.eqb (method (request x)) "GET".

(** A write request: method PUT. *)
Definition is_write (x : Exchange) : bool := String.eqb (method (request x)) "PUT".

(** [capability = 'onoff'], the default of the destructured argument. *)
Definition capability_of (args : ToggleArgs) : string :=
  match capability args with Some c => c | None => "onoff" end.

(** The request that reads the device of a [toggle_device] call. *)
Definition read_request (env : ProcessEnv) (args : ToggleArgs) : Request :=
  build_request env (HOMEY_CLIENT_SECRET env)
    ("/api/devices/" ++ optional_toString (deviceId args)) "GET" VUndefined.

(** The request that writes [targetValue] in a [toggle_device] call. *)
Definition write_request (env : ProcessEnv) (args : ToggleArgs)
  (targetValue : Primitive) : Request :=
  build_request env (HOMEY_CLIENT_SECRET env)
    ("/api/devices/" ++ optional_toString (deviceId args) ++ "/capabilities/" ++
     capability_of args)
    "PUT" (VObj [("value", Primitive_value targetValue)]).

(** The payload of the failure envelope of [toggle_device]. *)
Definition toggle_failure_payload (args : ToggleArgs) (details : string)
  : list (string * JsValue) :=
  [("error", VStr "Failed to toggle Homey device");
   ("details", VStr details);
   ("deviceId", optional_value (deviceId args))].

(** The payload of the success envelope of [toggle_device]. *)
Definition toggle_success_payload (args : ToggleArgs) (targetValue : Primitive)
  : list (string * JsValue) :=
  [("success", VBool true);
   ("deviceId", optional_value (deviceId args));
   ("capability", VStr (capability_of args));
   ("value", Primitive_value targetValue);
   ("message",
    VStr ("Successfully set " ++ capability_of args ++ " to " ++
          Primitive_toString targetValue))].

(** The failure envelope of [toggle_device] for a caught [error]. *)
Definition toggle_failure (args : ToggleArgs) (error : Thrown) : Envelope :=
  text_envelope
    (JSON_stringify_object (toggle_failure_payload args (error_message error)) 0)
    (Some true).

(** The success envelope of [toggle_device]. *)
Definition toggle_success (args : ToggleArgs) (targetValue : Primitive)
  : Envelope :=
  text_envelope (JSON_stringify_object (toggle_success_payload args targetValue) 0)
    None.

(** The failure envelope of [list_devices] for a caught [error]. *)
Definition list_failure (error : Thrown) : Envelope :=
  text_envelope
    (JSON_stringify_object
       [("error", VStr "Failed to list Homey devices");
        ("details", VStr (error_message error))] 0)
    (Some true).

(** The success envelope of [list_devices]. *)
Definition list_success (devices : list JsValue) : Envelope :=
  text_envelope
    (JSON_stringify_object
       [("devices", VArr devices);
        ("count", VNum (NInt (Z.of_nat (length devices))))] 2)
    None.

(** The message of the error for a current value that is not boolean. *)
Definition not_boolean_message (capability_ : string) : string :=
  "Cannot toggle capability " ++ dquote ++ capability_ ++ dquote ++
  " - current value is not boolean".

(** [typeof v === 'boolean'] *)
Definition is_boolean (v : JsValue) : bool :=
  match v with
  | VBool _ => true
  | _ => false
  end.

(** *** The helper and the handlers as trees of cases

    The same functions written as one case analysis each; they are proved
    equal to the functions above and serve to reason about them. *)

(** The error of [getHomeyToken]. *)
Definition missing_credentials : Thrown :=
  ThrownError
    "HOMEY_CLIENT_ID and HOMEY_CLIENT_SECRET environment variables must be set".

(** What one call of the request helper does. *)
Definition request_outcome (env : ProcessEnv) (up : Upstream)
  (endpoint method_ : string) (body_ : JsValue) (log : list Exchange)
  : (Thrown + JsValue) * list Exchange :=
  if has_credentials env then
    let req := build_request env (HOMEY_CLIENT_SECRET env) endpoint method_ body_ in
    let log' := (log ++ [{| request := req; outcome := up log req |}])%list in
    match up log req with
    | Fulfilled r =>
        if ok r then (body_json r, log')
        else
          match body_text r with
          | inr errorText =>
              (inl (ThrownError (failure_message r errorText)), log')
          | inl e => (inl e, log')
          end
    | Rejected t => (inl t, log')
    end
  else (inl missing_credentials, log).

(** The write of [toggle_device] and the envelope that follows it. *)
Definition write_phase (env : ProcessEnv) (up : Upstream) (args : ToggleArgs)
  (targetValue : Primitive) (log : list Exchange)
  : (Thrown + Envelope) * list Exchange :=
  match
    request_outcome env up
      ("/api/devices/" ++ optional_toString (deviceId args) ++ "/capabilities/" ++
       capability_of args)
      "PUT" (VObj [("value", Primitive_value targetValue)]) log
  with
  | (inr _, log') => (inr (toggle_success args targetValue), log')
  | (inl e, log') => (inr (toggle_failure args e), log')
  end.

(** The whole handler [toggle_device] as a tree of cases. *)
Definition toggle_outcome (env : ProcessEnv) (up : Upstream) (args : ToggleArgs)
  (log : list Exchange) : (Thrown + Envelope) * list Exchange :=
  if negb (truthy (optional_value (deviceId args))) then
    (inr (toggle_failure args (ThrownError "deviceId is required")), log)
  else
    match value args with
    | Some v => write_phase env up args v log
    | None =>
        match
          request_outcome env up
            ("/api/devices/" ++ optional_toString (deviceId args)) "GET"
            VUndefined log
        with
        | (inl e, log') => (inr (toggle_failure args e), log')
        | (inr deviceData, log') =>
            match current_value deviceData (capability_of args) with
            | inl e => (inr (toggle_failure args e), log')
            | inr (VBool b) => write_phase env up args (PBool (negb b)) log'
            | inr _ =>
                (inr (toggle_failure args
                        (ThrownError (not_boolean_message (capability_of args)))),
                 log')
            end
        end
    end.

(** The whole handler [list_devices] as a tree of cases. *)
Definition list_outcome (env : ProcessEnv) (up : Upstream)
  (log : list Exchange) : (Thrown + Envelope) * list Exchange :=
  match request_outcome env up "/api/devices" "GET" VUndefined log with
  | (inl e, log') => (inr (list_failure e), log')
  | (inr data, log') =>
      match read data "result" with
      | inl e => (inr (list_failure e), log')
      | inr result =>
          match map_devices result with
          | inl e => (inr (list_failure e), log')
          | inr devices => (inr (list_success devices), log')
          end
      end
  end.

(** The exchange of the read request of a call that starts at [log]. *)
Definition read_exchange (env : ProcessEnv) (up : Upstream) (args : ToggleArgs)
  (log : list Exchange) : Exchange :=
  {| request := read_request env args;
     outcome := up log (read_request env args) |}.

(** The exchange of the write request issued at [log]. *)
Definition write_exchange (env : ProcessEnv) (up : Upstream) (args : ToggleArgs)
  (v : Primitive) (log : list Exchange) : Exchange :=
  {| request := write_request env args v;
     outcome := up log (write_request env args v) |}.

(** The request of [list_devices]. *)
Definition list_request (env : ProcessEnv) : Request :=
  build_request env (HOMEY_CLIENT_SECRET env) "/api/devices" "GET" VUndefined.

(** *** Test doubles and the calls of the tests *)

(** An upstream that answers its n-th call with the n-th of [answers] and
    any later call with [otherwise], whatever the request: the test double
    [vi.fn().mockResolvedValueOnce(...)...mockResolvedValue(...)] of the
    tests. *)
Definition scripted (answers : list FetchResult) (otherwise : FetchResult)
  : Upstream :=
  fun log _ => nth (length log) answers otherwise.

(** A response with status 200 whose [json()] resolves to [data]. *)
Definition ok_response (data : JsValue) : Response :=
  {| ok := true; status := 200; statusText := "OK"; body_text := inr "";
     body_json := inr data |}.

(** A response that is not [ok]. *)
Definition error_response (status_ : N) (statusText_ body_ : string) : Response :=
  {| ok := false; status := status_; statusText := statusText_;
     body_text := inr body_;
     body_json := inl (ThrownError "Unexpected token") |}.

(** The environment of the tests. *)
Definition test_env : ProcessEnv :=
  {| env_HOMEY_CLIENT_ID := Some "test-client-id";
     env_HOMEY_CLIENT_SECRET := Some "test-client-secret";
     env_HOMEY_API_URL := Some "https://test-api.homey.com" |}.

(** An environment without the variables. *)
Definition empty_env : ProcessEnv :=
  {| env_HOMEY_CLIENT_ID := None;
     env_HOMEY_CLIENT_SECRET := None;
     env_HOMEY_API_URL := None |}.

(** A device answer [{ result: { id, capabilitiesObj: { onoff: { value } } } }]. *)
Definition device_answer (id : string) (onoff : JsValue) : JsValue :=
  VObj [("result",
         VObj [("id", VStr id);
               ("capabilitiesObj", VObj [("onoff", VObj [("value", onoff)])])])].

(** The call [toggle_device({ deviceId: 'd1', capability: 'onoff' })]. *)
Definition toggle_d1 : ToggleArgs :=
  {| deviceId := Some "d1"; capability := Some "onoff"; value := None |}.

(** The call [toggle_device({ deviceId: 'device-1', capability: 'onoff',
    value: true })] of the tests. *)
Definition set_device_1 : ToggleArgs :=
  {| deviceId := Some "device-1"; capability := Some "onoff";
     value := Some (PBool true) |}.

(** An upstream that answers every call with status 200 and [{}]. *)
Definition always_ok : Upstream := scripted [] (Fulfilled (ok_response (VObj []))).

(** The state of a simulated switch after the calls of [log]: the value of
    the last write, or [initial]. *)
Definition switch_state (initial : bool) (log : list Exchange) : bool :=
  fold_left
    (fun state x =>
       if is_write x then
         match body (request x) with
         | Some text =>
             if String.eqb text ("{" ++ QuoteJSONString "value" ++ ":true}")
             then true
             else if String.eqb text ("{" ++ QuoteJSONString "value" ++ ":false}")
             then false
             else state
         | None => state
         end
       else state)
    log initial.

(** A simulated device with one on/off switch: a GET is answered with the
    state of the switch, any other request with [{}]. *)
Definition switch (initial : bool) : Upstream :=
  fun log req =>
    if String.eqb (method req) "GET"
    then Fulfilled (ok_response
                      (device_answer "d1" (VBool (switch_state initial log))))
    else Fulfilled (ok_response (VObj [])).

(** An upstream that answers every call with status 401. *)
Definition unauthorized : Upstream :=
  scripted [] (Fulfilled (error_response 401 "Unauthorized" "Invalid credentials")).



(** An upstream that answers every call with status 404. *)
Definition not_found : Upstream :=
  scripted [] (Fulfilled (error_response 404 "Not Found" "Device not found")).

(** The call [toggle_device({ value: true })], without deviceId. *)
Definition toggle_nothing : ToggleArgs :=
  {| deviceId := None; capability := None; value := Some (PBool true) |}.

(** The call [toggle_device({ deviceId: 'invalid-device', value: true })]. *)
Definition set_invalid_device : ToggleArgs :=
  {| deviceId := Some "invalid-device"; capability := None;
     value := Some (PBool true) |}.

(** The two devices of the tests of [list_devices]. *)
Definition test_devices : list JsValue :=
  [ VObj [("id", VStr "device-1");
          ("name", VStr "Living Room Light");
          ("zone", VObj [("name", VStr "Living Room")]);
          ("class", VStr "light");
          ("capabilities", VArr [VStr "onoff"; VStr "dim"]);
          ("capabilitiesObj",
           VObj [("onoff", VObj [("value", VBool true); ("type", VStr "boolean")]);
                 ("dim", VObj [("value", VNum (NFrac "0.5"));
                               ("type", VStr "number")])])];
    VObj [("id", VStr "device-2");
          ("name", VStr "Bedroom Thermostat");
          ("zone", VObj [("name", VStr "Bedroom")]);
          ("class", VStr "thermostat");
          ("capabilities", VArr [VStr "target_temperature"]);
          ("capabilitiesObj",
           VObj [("target_temperature",
                  VObj [("value", VNum (NInt 21)); ("type", VStr "number")])])] ].

(** An upstream whose first answer is status 200 with the JSON [data]. *)
Definition answers (data : JsValue) : Upstream :=
  scripted [Fulfilled (ok_response data)] (Fulfilled (ok_response (VObj []))).

(** The call [toggle_device({ deviceId: 'device-1', capability: 'onoff' })]. *)
Definition toggle_device_1 : ToggleArgs :=
  {| deviceId := Some "device-1"; capability := Some "onoff"; value := None |}.

(** The call [toggle_device({ deviceId: 'device-1', value: false })]. *)
Definition unset_device_1 : ToggleArgs :=
  {| deviceId := Some "device-1"; capability := None;
     value := Some (PBool false) |}.

(** The upstream of the test that toggles by fetching the current state. *)
Definition off_then_ok : Upstream :=
  scripted
    [Fulfilled (ok_response
       (VObj [("result",
               VObj [("id", VStr "device-1");
                     ("capabilitiesObj",
                      VObj [("onoff", VObj [("value", VBool false)])])])]));
     Fulfilled (ok_response (VObj []))]
    (Fulfilled (ok_response (VObj []))).

(** The headers of every request of the tests. *)
Definition test_headers : list (string * string) :=
  [("Authorization", "Bearer test-client-secret");
   ("Content-Type", "application/json")].

(** The handler of the prompt [control-device]; [action] defaults to
    ['toggle']. *)
Definition control_device (deviceName : string) (action : option string)
  : string :=
  let action_ := match action with Some a => a | None => "toggle" end in
  "Please " ++ action_ ++ " the Homey device named " ++ dquote ++ deviceName ++
  dquote ++
  ". First list all devices to find the correct device ID, then perform the action.".

(** The exchange of a call of the request helper made at [log]. *)
Definition request_exchange (env : ProcessEnv) (up : Upstream)
  (endpoint method_ : string) (body_ : JsValue) (log : list Exchange)
  : Exchange :=
  {| request := build_request env (HOMEY_CLIENT_SECRET env) endpoint method_ body_;
     outcome :=
       up log (build_request env (HOMEY_CLIENT_SECRET env) endpoint method_ body_) |}.

(** The exchange of the request of [list_devices] made at [log]. *)
Definition list_exchange (env : ProcessEnv) (up : Upstream)
  (log : list Exchange) : Exchange :=
  {| request := list_request env; outcome := up log (list_request env) |}.

(** The JSON text of a [value] argument. *)
Definition Primitive_json (p : Primitive) : string :=
  match p with
  | PBool b => Boolean_toString b
  | PNum n => Number_toString n
  | PStr s => QuoteJSONString s
  end.

(** A credential that is unset or the empty string. *)
Definition unset (variable : option string) : Prop :=
  variable = None \/ variable = Some "".

(** An upstream on which every call of [fetch] rejects with [reason]. *)
Definition rejecting (reason : Thrown) : Upstream := scripted [] (Rejected reason).

(** An upstream that answers every call with status 204 and an empty body,
    on which [json()] rejects. *)
Definition no_content : Upstream :=
  scripted []
    (Fulfilled {| ok := true; status := 204; statusText := "No Content";
                  body_text := inr "";
                  body_json := inl (ThrownError "Unexpected end of JSON input") |}).

(** The response with status 204 of [no_content]. *)
Definition no_content_response : Response :=
  {| ok := true; status := 204; statusText := "No Content";
     body_text := inr "";
     body_json := inl (ThrownError "Unexpected end of JSON input") |}.

(** An upstream that answers the read of a switched-off device and then the
    write with status 204 and an empty body. *)
Definition off_then_no_content : Upstream :=
  scripted
    [Fulfilled (ok_response (device_answer "device-1" (VBool false)));
     Fulfilled no_content_response]
    (Fulfilled no_content_response).

(** The environment of the tests with a base URL that ends in a slash. *)
Definition slash_env : ProcessEnv :=
  {| env_HOMEY_CLIENT_ID := Some "test-client-id";
     env_HOMEY_CLIENT_SECRET := Some "test-client-secret";
     env_HOMEY_API_URL := Some "https://test-api.homey.com/" |}.

(** The environment of the tests without [HOMEY_API_URL]. *)
Definition default_url_env : ProcessEnv :=
  {| env_HOMEY_CLIENT_ID := Some "test-client-id";
     env_HOMEY_CLIENT_SECRET := Some "test-client-secret";
     env_HOMEY_API_URL := None |}.

(** The call [toggle_device({ deviceId: 'device-1', capability: 'dim',
    value: 0.5 })]. *)
Definition dim_device_1 : ToggleArgs :=
  {| deviceId := Some "device-1"; capability := Some "dim";
     value := Some (PNum (NFrac "0.5")) |}.

End Homey.

(* ===================================================================== *)
(** ** The server with the class HomeyApiClient                           *)
(* ===================================================================== *)

Module HomeyMock.

(** The start of the script: without [CLIENT_ID] or [CLIENT_SECRET] the
    process exits with status 1 before any tool is registered. *)
Definition validate_environment (CLIENT_ID CLIENT_SECRET : option string)
  : option N :=
  if negb (truthy (Homey.optional_value CLIENT_ID)) ||
     negb (truthy (Homey.optional_value CLIENT_SECRET))
  then Some 1%N
  else None.

(** The operations the tool handlers call on [homeyClient], over the state
    [S] of the client object. *)
Record HomeyApi (S : Type) : Type := {
  listDevices : Effect S (list JsValue);
  toggleDevice : option string -> Effect S (list (string * JsValue));
  listFlows : Effect S (list JsValue)
}.

Arguments listDevices {S}.
Arguments toggleDevice {S}.
Arguments listFlows {S}.

(** The fields of a [HomeyApiClient]; [accessToken = None] is [null]. *)
Record HomeyApiClient : Type := {
  clientId : string;
  clientSecret : string;
  apiUrl : string;
  accessToken : option string
}.

(** [new HomeyApiClient(clientId, clientSecret, apiUrl)] *)
Definition new_HomeyApiClient (clientId_ clientSecret_ apiUrl_ : string)
  : HomeyApiClient :=
  {| clientId := clientId_; clientSecret := clientSecret_; apiUrl := apiUrl_;
     accessToken := None |}.

Definition authenticate : Effect HomeyApiClient unit :=
  fun this =>
    (inr tt,
     {| clientId := clientId this; clientSecret := clientSecret this;
        apiUrl := apiUrl this;
        accessToken := Some "MOCK_TOKEN_REPLACE_IN_PRODUCTION" |}).

(** [if (!this.accessToken) { await this.authenticate(); }] *)
Definition ensure_authenticated : Effect HomeyApiClient unit :=
  fun this =>
    if negb (truthy (Homey.optional_value (accessToken this)))
    then authenticate this
    else (inr tt, this).

Definition value_of (v : JsValue) : JsValue := VObj [("value", v)].

Definition strings (l : list string) : JsValue := VArr (map VStr l).

Definition mock_devices : list JsValue :=
  [ VObj [("id", VStr "device-1");
          ("name", VStr "Living Room Light");
          ("class", VStr "light");
          ("capabilities", strings ["onoff"; "dim"]);
          ("capabilitiesObj",
           VObj [("onoff", value_of (VBool true));
                 ("dim", value_of (VNum (NFrac "0.75")))]);
          ("zone", VStr "Living Room")];
    VObj [("id", VStr "device-2");
          ("name", VStr "Bedroom Thermostat");
          ("class", VStr "thermostat");
          ("capabilities", strings ["target_temperature"; "measure_temperature"]);
          ("capabilitiesObj",
           VObj [("target_temperature", value_of (VNum (NInt 21)));
                 ("measure_temperature", value_of (VNum (NFrac "20.5")))]);
          ("zone", VStr "Bedroom")];
    VObj [("id", VStr "device-3");
          ("name", VStr "Front Door Lock");
          ("class", VStr "lock");
          ("capabilities", strings ["locked"]);
          ("capabilitiesObj", VObj [("locked", value_of (VBool true))]);
          ("zone", VStr "Hallway")] ].

(** The four bytes between [21] and [C] in the source of the first flow. *)
Definition degree_bytes : string :=
  String "195"%char (String "130"%char (String "194"%char (String "176"%char ""))).

Definition mock_flows : list JsValue :=
  [ VObj [("id", VStr "flow-1");
          ("name", VStr "Good Morning");
          ("enabled", VBool true);
          ("trigger", VStr "When time is 07:00");
          ("actions",
           strings ["Turn on lights";
                    "Set thermostat to 21" ++ degree_bytes ++ "C"])];
    VObj [("id", VStr "flow-2");
          ("name", VStr "Good Night");
          ("enabled", VBool true);
          ("trigger", VStr "When time is 23:00");
          ("actions", strings ["Turn off all lights"; "Lock doors"])];
    VObj [("id", VStr "flow-3");
          ("name", VStr "Away Mode");
          ("enabled", VBool false);
          ("trigger", VStr "When last person leaves");
          ("actions",
           strings ["Turn off all devices"; "Lock all doors"; "Set alarm"])] ].

Definition HomeyApiClient_listDevices : Effect HomeyApiClient (list JsValue) :=
  (_ <- ensure_authenticated ;;
   ret mock_devices)%async.

(** [a === b] for [a] a value and [b] an optional string. *)
Definition strict_equals (a : JsValue) (b : option string) : bool :=
  match a, b with
  | VStr s, Some t => String.eqb s t
  | VUndefined, None => true
  | _, _ => false
  end.

(** [devices.find((d) => d.id === deviceId)]; the devices of the class are
    objects, so that [d.id] does not throw. *)
Definition find_device (devices : list JsValue) (deviceId : option string)
  : JsValue :=
  match find (fun d => strict_equals (get d "id") deviceId) devices with
  | Some d => d
  | None => VUndefined
  end.

(** [v.includes(s)] *)
Definition includes_string (v : JsValue) (s : string) : Thrown + bool :=
  match v with
  | VArr items =>
      inr (existsb (fun x => strict_equals x (Some s)) items)
  | VStr t => inr (includes t s)
  | VUndefined | VNull => inl (ThrownError (cannot_read v "includes"))
  | _ => inl (ThrownError "device.capabilities.includes is not a function")
  end.

Definition HomeyApiClient_toggleDevice (deviceId : option string)
  : Effect HomeyApiClient (list (string * JsValue)) :=
  (_ <- ensure_authenticated ;;
   devices <- HomeyApiClient_listDevices ;;
   let device := find_device devices deviceId in
   if negb (truthy device) then
     throw (ThrownError ("Device not found: " ++ Homey.optional_toString deviceId))
   else
     supported <- lift (capabilities <- read device "capabilities" ;;
                        includes_string capabilities "onoff")%throwing ;;
     if negb supported then
       throw (ThrownError
         ("Device " ++ Homey.optional_toString deviceId ++
          " does not support onoff capability"))
     else
       currentState <- lift (capabilitiesObj <- read device "capabilitiesObj" ;;
                             onoff <- read capabilitiesObj "onoff" ;;
                             read onoff "value")%throwing ;;
       let newState := negb (truthy currentState) in
       deviceName <- lift (read device "name") ;;
       ret [("deviceId", Homey.optional_value deviceId);
            ("deviceName", deviceName);
            ("previousState", currentState);
            ("newState", VBool newState)])%async.

Definition HomeyApiClient_listFlows : Effect HomeyApiClient (list JsValue) :=
  (_ <- ensure_authenticated ;;
   ret mock_flows)%async.

(** The class as an implementation of the operations. *)
Definition HomeyApiClient_api : HomeyApi HomeyApiClient :=
  {| listDevices := HomeyApiClient_listDevices;
     toggleDevice := HomeyApiClient_toggleDevice;
     listFlows := HomeyApiClient_listFlows |}.

(** [error.message] in a [catch] block. *)
Definition message_of (error : Thrown) : Thrown + JsValue :=
  match error with
  | ThrownError message => inr (VStr message)
  | ThrownValue v => read v "message"
  end.

Section Handlers.

Variable S : Type.
Variable homeyClient : HomeyApi S.

(** The [catch] block the three handlers share, apart from the text of the
    diagnostic they print. *)
Definition handler_catch (error : Thrown) : Effect S Envelope :=
  (message <- lift (message_of error) ;;
   ret (text_envelope (JSON_stringify_object [("error", message)] 2)
          (Some true)))%async.

Definition list_devices_try : Effect S Envelope :=
  (devices <- listDevices homeyClient ;;
   ret (text_envelope (JSON_stringify_object [("devices", VArr devices)] 2)
          None))%async.

Definition list_devices : Effect S Envelope :=
  try_catch list_devices_try handler_catch.

Definition toggle_device_try (deviceId : option string) : Effect S Envelope :=
  (result <- toggleDevice homeyClient deviceId ;;
   ret (text_envelope (JSON_stringify_object result 2) None))%async.

Definition toggle_device (deviceId : option string) : Effect S Envelope :=
  try_catch (toggle_device_try deviceId) handler_catch.

Definition list_flows_try : Effect S Envelope :=
  (flows <- listFlows homeyClient ;;
   ret (text_envelope (JSON_stringify_object [("flows", VArr flows)] 2)
          None))%async.

Definition list_flows : Effect S Envelope :=
  try_catch list_flows_try handler_catch.

End Handlers.

Arguments handler_catch {S}.
Arguments list_devices {S}.
Arguments list_devices_try {S}.
Arguments toggle_device {S}.
Arguments toggle_device_try {S}.
Arguments list_flows {S}.
Arguments list_flows_try {S}.

(** The failure envelope of the three handlers for an error message. *)
Definition error_envelope (message : JsValue) : Envelope :=
  text_envelope (JSON_stringify_object [("error", message)] 2) (Some true).

(** The state of the client once a method has made sure it holds a token. *)
Definition authenticated (this : HomeyApiClient) : HomeyApiClient :=
  if negb (truthy (Homey.optional_value (accessToken this)))
  then {| clientId := clientId this; clientSecret := clientSecret this;
          apiUrl := apiUrl this;
          accessToken := Some "MOCK_TOKEN_REPLACE_IN_PRODUCTION" |}
  else this.

(** The process of the script as it starts: the exit status once
    [process.exit] was called, the lines printed with [console.error], the
    names passed to [server.registerTool] and the client once it was
    constructed. *)
Record Script : Type := {
  exit_status : option N;
  stderr : list string;
  registered_tools : list string;
  homeyClient : option HomeyApiClient
}.

Definition console_error (line : string) (p : Script) : Script :=
  {| exit_status := exit_status p; stderr := (stderr p ++ [line])%list;
     registered_tools := registered_tools p; homeyClient := homeyClient p |}.

Definition process_exit (code : N) (p : Script) : Script :=
  {| exit_status := Some code; stderr := stderr p;
     registered_tools := registered_tools p; homeyClient := homeyClient p |}.

Definition registerTool (name : string) (p : Script) : Script :=
  {| exit_status := exit_status p; stderr := stderr p;
     registered_tools := (registered_tools p ++ [name])%list;
     homeyClient := homeyClient p |}.

Definition set_homeyClient (client : HomeyApiClient) (p : Script) : Script :=
  {| exit_status := exit_status p; stderr := stderr p;
     registered_tools := registered_tools p; homeyClient := Some client |}.

(** The statements of the script in their order, from the validation of
    the environment (read after [dotenv.config]) to the line printed before
    the server connects to its transport; nothing runs after
    [process.exit]. *)
Definition run_script (CLIENT_ID CLIENT_SECRET env_HOMEY_API_URL : option string)
  : Script :=
  let HOMEY_API_URL := Homey.env_or env_HOMEY_API_URL "https://api.athom.com" in
  let p0 := {| exit_status := None; stderr := []; registered_tools := [];
               homeyClient := None |} in
  match validate_environment CLIENT_ID CLIENT_SECRET with
  | Some code =>
      let p1 := console_error "Error: Missing required environment variables." p0 in
      let p2 :=
        console_error
          "Please ensure CLIENT_ID and CLIENT_SECRET are set in your .env file or environment."
          p1 in
      let p3 := console_error "See .env.example for reference." p2 in
      process_exit code p3
  | None =>
      let p1 := console_error "Starting Homey MCP Server..." p0 in
      let p2 := console_error ("Homey API URL: " ++ HOMEY_API_URL) p1 in
      let p3 := console_error "Environment variables validated successfully." p2 in
      let p4 :=
        set_homeyClient
          (new_HomeyApiClient (Homey.optional_toString CLIENT_ID)
             (Homey.optional_toString CLIENT_SECRET) HOMEY_API_URL) p3 in
      let p5 := registerTool "list_devices" p4 in
      let p6 := registerTool "toggle_device" p5 in
      let p7 := registerTool "list_flows" p6 in
      console_error "Connecting to stdio transport..." p7
  end.

(** The result of [toggleDevice] of the class for each deviceId, as one case
    analysis; it is proved equal to the result of the method. *)
Definition toggleDevice_result (deviceId : option string)
  : Thrown + list (string * JsValue) :=
  match deviceId with
  | Some d =>
      if String.eqb "device-1" d then
        inr [("deviceId", VStr d);
             ("deviceName", VStr "Living Room Light");
             ("previousState", VBool true);
             ("newState", VBool false)]
      else if String.eqb "device-2" d || String.eqb "device-3" d then
        inl (ThrownError ("Device " ++ d ++ " does not support onoff capability"))
      else inl (ThrownError ("Device not found: " ++ d))
  | None => inl (ThrownError "Device not found: undefined")
  end.

End HomeyMock.


(* ===================================================================== *)
(** ** Properties                                                         *)
(* ===================================================================== *)

Section StringFacts.

Lemma prefix_append (s t : string) : String.prefix s (s ++ t) = true.
Proof.
  induction s as [|c s IH]; simpl.
  - destruct t; reflexivity.
  - destruct (ascii_dec c c) as [_|n]; [exact IH | contradiction].
Qed.

Lemma includes_here (s t : string) : includes (s ++ t) s = true.
Proof.
  destruct s as [|c s].
  - destruct t; reflexivity.
  - change (String.prefix (String c s) (String c s ++ t) || includes (s ++ t) (String c s) = true).
    rewrite prefix_append. reflexivity.
Qed.

Lemma includes_after (a h n : string) :
  includes h n = true -> includes (a ++ h) n = true.
Proof.
  intros H. induction a as [|c a IH]; [exact H|].
  change (String.prefix n (String c (a ++ h)) || includes (a ++ h) n = true).
  rewrite IH. apply orb_true_r.
Qed.


End StringFacts.

Section JsonFacts.

(** Only undefined serialises to undefined. *)
Lemma SerializeJSONProperty_undefined gap stepback v :
  SerializeJSONProperty gap stepback v = None <-> v = VUndefined.
Proof.
  destruct v; simpl; split; intros H; try discriminate H; reflexivity.
Qed.

(** The members of the text of an object are those of [serialized_keys], in
    order: a property is written with its quoted key, or left out when its
    value is undefined. *)
Lemma JSON_stringify_object_members (props : list (string * JsValue)) :
  let kept :=
    filter (fun kv =>
              match SerializeJSONProperty "" "" (snd kv) with
              | Some _ => true
              | None => false
              end) props in
  map fst kept = serialized_keys props /\
  JSON_stringify_object props 0 =
    wrap "{" "}" "" ""
      (map (fun kv =>
              QuoteJSONString (fst kv) ++ ":" ++
              match SerializeJSONProperty "" "" (snd kv) with
              | Some text => text
              | None => ""
              end) kept).
Proof.
  cbv zeta. split; [reflexivity|].
  unfold JSON_stringify_object, JSON_stringify.
  change (spaces (Nat.min 0 10)) with "".
  cbn [SerializeJSONProperty]. f_equal.
  induction props as [|[k v] props IH]; [reflexivity|].
  cbn [filter map fst snd].
  change ("" ++ "") with "" in *.
  destruct (SerializeJSONProperty "" "" v) as [text|] eqn:E.
  - cbn [map fst snd]. rewrite E, <- IH. reflexivity.
  - exact IH.
Qed.

End JsonFacts.

(** *** The request helper and the handlers of homey.ts, case by case *)

Module HomeyFacts.
Import Homey.

Lemma homeyApiRequest_run env up endpoint method_ body_ log :
  homeyApiRequest env up endpoint method_ body_ log =
  request_outcome env up endpoint method_ body_ log.
Proof.
  unfold homeyApiRequest, request_outcome, bind, getHomeyToken, has_credentials,
    fetch, throw, ret, lift.
  destruct (truthy_string (HOMEY_CLIENT_ID env)),
    (truthy_string (HOMEY_CLIENT_SECRET env)); cbn [negb orb andb];
    try reflexivity.
  destruct (up log _) as [r|t]; [destruct (ok r)|]; reflexivity.
Qed.

Lemma toggle_device_run env up args log :
  toggle_device env up args log = toggle_outcome env up args log.
Proof.
  unfold toggle_device, toggle_outcome, try_catch, toggle_device_try,
    toggle_device_catch, write_phase.
  unfold bind at 1.
  destruct (negb (truthy (optional_value (deviceId args)))); [reflexivity|].
  unfold ret at 1. unfold bind at 1.
  destruct (value args) as [v|].
  - unfold ret at 1. unfold bind. rewrite homeyApiRequest_run.
    destruct (request_outcome _ _ _ _ _ _) as [[e|x] log']; reflexivity.
  - unfold bind at 1. rewrite homeyApiRequest_run.
    destruct (request_outcome _ _ _ _ _ log) as [[e|deviceData] log'];
      [reflexivity|].
    unfold bind at 1. unfold lift at 1. fold (capability_of args).
    destruct (current_value deviceData (capability_of args)) as [e|cur];
      [reflexivity|].
    destruct cur; try reflexivity.
    unfold ret at 1. unfold bind. rewrite homeyApiRequest_run.
    destruct (request_outcome _ _ _ _ _ _) as [[e|x] log'']; reflexivity.
Qed.

Lemma list_devices_run env up log :
  list_devices env up log = list_outcome env up log.
Proof.
  unfold list_devices, list_outcome, try_catch, list_devices_try,
    list_devices_catch.
  unfold bind at 1. rewrite homeyApiRequest_run.
  destruct (request_outcome _ _ _ _ _ log) as [[e|data] log']; [reflexivity|].
  unfold bind at 1. unfold lift at 1.
  destruct (read data "result") as [e|result]; [reflexivity|].
  unfold bind, lift.
  destruct (map_devices result) as [e|devices]; reflexivity.
Qed.

End HomeyFacts.

(** *** toggle_device: the requests of a call *)

Section ToggleDevice.
Import Homey HomeyFacts.

Lemma issued_same (log : list Exchange) : issued log log = [].
Proof.
  unfold issued. rewrite <- (app_nil_r log) at 2.
  rewrite skipn_app, Nat.sub_diag, skipn_all. reflexivity.
Qed.

Lemma issued_app (log new : list Exchange) : issued log (log ++ new) = new.
Proof.
  unfold issued. rewrite skipn_app, Nat.sub_diag, skipn_all. reflexivity.
Qed.

Lemma issued_app2 (log l1 l2 : list Exchange) :
  issued log ((log ++ l1) ++ l2) = (l1 ++ l2)%list.
Proof. rewrite <- app_assoc. apply issued_app. Qed.

(** What the write phase adds to the log: nothing, or the write. *)
Lemma write_phase_log env up args v log :
  exists new,
    snd (write_phase env up args v log) = (log ++ new)%list /\
    (new = [] \/ exists y, new = [y] /\ request y = write_request env args v).
Proof.
  unfold write_phase, request_outcome.
  destruct (has_credentials env).
  - cbv zeta. fold (write_request env args v).
    exists [{| request := write_request env args v;
               outcome := up log (write_request env args v) |}].
    split; [|right; eexists; split; reflexivity].
    destruct (up log _) as [r|t];
      [destruct (ok r); [destruct (body_json r) | destruct (body_text r)]|];
      reflexivity.
  - exists []. rewrite app_nil_r. split; [reflexivity | left; reflexivity].
Qed.

Lemma write_request_is_write env args v y :
  request y = write_request env args v -> is_write y = true /\ is_read y = false.
Proof.
  intros H. unfold is_write, is_read. rewrite H. split; reflexivity.
Qed.

(** C1 (as amended). With an explicit value the handler issues no read
    request: it issues nothing or the one PUT.  Without a value, with a
    deviceId that is not falsy and both credentials set, the first request
    is the one read request GET /api/devices/{deviceId}, and the only other
    request the call can issue is one PUT write, after it. *)
Theorem toggle_device_read_before_write env up args log :
  (forall v, value args = Some v ->
     filter is_read (issued log (snd (toggle_device env up args log))) = [] /\
     (issued log (snd (toggle_device env up args log)) = [] \/
      exists y, issued log (snd (toggle_device env up args log)) = [y] /\
                request y = write_request env args v /\ is_write y = true)) /\
  (value args = None ->
   truthy (optional_value (deviceId args)) = true ->
   has_credentials env = true ->
   exists x rest,
     issued log (snd (toggle_device env up args log)) = x :: rest /\
     request x = read_request env args /\
     is_read x = true /\
     filter is_read rest = [] /\
     (rest = [] \/
      exists y b, rest = [y] /\ request y = write_request env args (PBool b) /\
                  is_write y = true)).
Proof.
  rewrite toggle_device_run. unfold toggle_outcome. split.
  - intros v Hv. rewrite Hv.
    destruct (negb (truthy (optional_value (deviceId args)))).
    + cbn [snd]. rewrite issued_same. split; [reflexivity | left; reflexivity].
    + destruct (write_phase_log env up args v log) as [new [H [N | [y [N Hy]]]]];
        rewrite H, issued_app, N.
      * split; [reflexivity | left; reflexivity].
      * destruct (write_request_is_write _ _ _ _ Hy) as [W R].
        split; [cbn [filter]; rewrite R; reflexivity|].
        right. exists y. auto.
  - intros Hv Hid Hc. rewrite Hv, Hid. cbn [negb].
    unfold request_outcome at 1. rewrite Hc. cbv zeta.
    fold (read_request env args).
    set (x := {| request := read_request env args;
                 outcome := up log (read_request env args) |}).
    assert (Rx : is_read x = true) by reflexivity.
    assert (Stop : forall (e : Envelope),
              exists x0 rest,
                issued log (snd (@inr Thrown Envelope e, (log ++ [x])%list)) = x0 :: rest /\
                request x0 = read_request env args /\ is_read x0 = true /\
                filter is_read rest = [] /\
                (rest = [] \/
                 exists y b, rest = [y] /\
                   request y = write_request env args (PBool b) /\
                   is_write y = true)).
    { intros e. exists x, []. cbn [snd]. rewrite issued_app.
      repeat split; auto. }
    destruct (up log (read_request env args)) as [r|t];
      [destruct (ok r); [|destruct (body_text r)]|];
      try apply Stop.
    destruct (body_json r) as [e|deviceData]; [apply Stop|].
    destruct (current_value deviceData (capability_of args)) as [e|cur];
      [apply Stop|].
    destruct cur; try apply Stop.
    destruct (write_phase_log env up args (PBool (negb b)) (log ++ [x]))
      as [new [H N]].
    rewrite H, issued_app2. exists x, new. cbn [app].
    split; [reflexivity|]. split; [reflexivity|]. split; [exact Rx|].
    destruct N as [N | [y [N Hy]]]; subst new.
    + split; [reflexivity | left; reflexivity].
    + destruct (write_request_is_write _ _ _ _ Hy) as [W R].
      split; [cbn [filter]; rewrite R; reflexivity|].
      right. exists y, (negb b). auto.
Qed.

Lemma toggle_device_read_before_write_witness :
  (filter is_read
     (issued [] (snd (toggle_device test_env always_ok set_device_1 []))) = [] /\
   (issued [] (snd (toggle_device test_env always_ok set_device_1 [])) = [] \/
    exists y,
      issued [] (snd (toggle_device test_env always_ok set_device_1 [])) = [y] /\
      request y = write_request test_env set_device_1 (PBool true) /\
      is_write y = true)) /\
  (exists x rest,
     issued [] (snd (toggle_device test_env (switch false) toggle_d1 [])) =
       x :: rest /\
     request x = read_request test_env toggle_d1 /\
     is_read x = true /\
     filter is_read rest = [] /\
     (rest = [] \/
      exists y b, rest = [y] /\
                  request y = write_request test_env toggle_d1 (PBool b) /\
                  is_write y = true)).
Proof.
  split.
  - apply (proj1 (toggle_device_read_before_write test_env always_ok
                    set_device_1 []) (PBool true)).
    reflexivity.
  - apply (proj2 (toggle_device_read_before_write test_env (switch false)
                    toggle_d1 [])); reflexivity.
Defined.

(** C1 as stated fails without credentials: a call without a value and with
    a deviceId issues no read request at all, because [getHomeyToken] throws
    before [fetch] is called. *)
Lemma toggle_device_without_credentials_reads_nothing :
  value toggle_d1 = None /\
  truthy (optional_value (deviceId toggle_d1)) = true /\
  issued [] (snd (toggle_device empty_env (switch false) toggle_d1 [])) = [] /\
  length (filter is_read
            (issued [] (snd (toggle_device empty_env (switch false) toggle_d1 []))))
    <> 1 /\
  fst (toggle_device empty_env (switch false) toggle_d1 []) =
    inr (toggle_failure toggle_d1
           (ThrownError
              "HOMEY_CLIENT_ID and HOMEY_CLIENT_SECRET environment variables must be set")).
Proof.
  repeat (split; [reflexivity|]).
  split; [|reflexivity]. vm_compute. discriminate.
Qed.

(** A call without a value that reads a current value [cur]: the handler up
    to the test [typeof currentValue === 'boolean']. *)
Lemma toggle_device_after_read env up args log r deviceData cur :
  value args = None ->
  truthy (optional_value (deviceId args)) = true ->
  has_credentials env = true ->
  up log (read_request env args) = Fulfilled r ->
  ok r = true ->
  body_json r = inr deviceData ->
  current_value deviceData (capability_of args) = inr cur ->
  toggle_device env up args log =
  match cur with
  | VBool b =>
      write_phase env up args (PBool (negb b))
        (log ++ [read_exchange env up args log])
  | _ =>
      (inr (toggle_failure args
              (ThrownError (not_boolean_message (capability_of args)))),
       (log ++ [read_exchange env up args log])%list)
  end.
Proof.
  intros Hv Hid Hc Hup Hok Hjson Hcur.
  rewrite toggle_device_run. unfold toggle_outcome.
  rewrite Hv, Hid. cbn [negb].
  unfold request_outcome at 1. rewrite Hc. cbv zeta.
  fold (read_request env args). unfold read_exchange.
  rewrite Hup, Hok, Hjson, Hcur. destruct cur; reflexivity.
Qed.

(** A write that succeeds. *)
Lemma write_phase_success env up args v log w data :
  has_credentials env = true ->
  up log (write_request env args v) = Fulfilled w ->
  ok w = true ->
  body_json w = inr data ->
  write_phase env up args v log =
  (inr (toggle_success args v), (log ++ [write_exchange env up args v log])%list).
Proof.
  intros Hc Hup Hok Hjson. unfold write_phase, request_outcome.
  rewrite Hc. cbv zeta. fold (write_request env args v).
  unfold write_exchange. rewrite Hup, Hok, Hjson. reflexivity.
Qed.

(** The write phase with credentials always issues the write. *)
Lemma write_phase_issues env up args v log :
  has_credentials env = true ->
  snd (write_phase env up args v log) =
  (log ++ [write_exchange env up args v log])%list.
Proof.
  intros Hc. unfold write_phase, request_outcome. rewrite Hc. cbv zeta.
  fold (write_request env args v). unfold write_exchange.
  destruct (up log _) as [w|t];
    [destruct (ok w); [destruct (body_json w) | destruct (body_text w)]|];
    reflexivity.
Qed.

(** C2. A call without a value that fetches the boolean [b] writes [!b]
    (the body of the PUT is the JSON of [{ value: !b }]) and, when the write
    succeeds, reports [!b] in an envelope without [isError]; a second call
    that fetches what the first one wrote writes [b] again. *)
Theorem toggle_device_negates env up args log r deviceData b :
  value args = None ->
  truthy (optional_value (deviceId args)) = true ->
  has_credentials env = true ->
  up log (read_request env args) = Fulfilled r ->
  ok r = true ->
  body_json r = inr deviceData ->
  current_value deviceData (capability_of args) = inr (VBool b) ->
  issued log (snd (toggle_device env up args log)) =
    [read_exchange env up args log;
     write_exchange env up args (PBool (negb b))
       (log ++ [read_exchange env up args log])] /\
  body (write_request env args (PBool (negb b))) =
    Some ("{" ++ QuoteJSONString "value" ++ ":" ++ Boolean_toString (negb b) ++ "}") /\
  (forall w data,
     up (log ++ [read_exchange env up args log])%list
        (write_request env args (PBool (negb b))) = Fulfilled w ->
     ok w = true ->
     body_json w = inr data ->
     exists e,
       fst (toggle_device env up args log) = inr e /\
       isError e = None /\
       payload_text e =
         JSON_stringify_object
           [("success", VBool true);
            ("deviceId", optional_value (deviceId args));
            ("capability", VStr (capability_of args));
            ("value", VBool (negb b));
            ("message",
             VStr ("Successfully set " ++ capability_of args ++ " to " ++
                   Boolean_toString (negb b)))] 0) /\
  (forall r2 deviceData2,
     up (snd (toggle_device env up args log)) (read_request env args) =
       Fulfilled r2 ->
     ok r2 = true ->
     body_json r2 = inr deviceData2 ->
     current_value deviceData2 (capability_of args) = inr (VBool (negb b)) ->
     issued (snd (toggle_device env up args log))
       (snd (toggle_device env up args (snd (toggle_device env up args log)))) =
     [read_exchange env up args (snd (toggle_device env up args log));
      write_exchange env up args (PBool b)
        (snd (toggle_device env up args log) ++
         [read_exchange env up args (snd (toggle_device env up args log))])]).
Proof.
  intros Hv Hid Hc Hup Hok Hjson Hcur.
  assert (Once : forall log0 r0 d0 b0,
    up log0 (read_request env args) = Fulfilled r0 -> ok r0 = true ->
    body_json r0 = inr d0 ->
    current_value d0 (capability_of args) = inr (VBool b0) ->
    issued log0 (snd (toggle_device env up args log0)) =
      [read_exchange env up args log0;
       write_exchange env up args (PBool (negb b0))
         (log0 ++ [read_exchange env up args log0])]).
  { intros log0 r0 d0 b0 H1 H2 H3 H4.
    rewrite (toggle_device_after_read env up args log0 r0 d0 (VBool b0));
      try assumption.
    rewrite write_phase_issues by assumption. apply issued_app2. }
  split; [apply (Once log r deviceData b); assumption|].
  split.
  { unfold write_request, build_request. cbn [body Primitive_value].
    destruct b; reflexivity. }
  split.
  - intros w data Hw Hwok Hwjson.
    rewrite (toggle_device_after_read env up args log r deviceData (VBool b));
      try assumption.
    rewrite (write_phase_success env up args _ _ w data); try assumption.
    eexists. cbn [fst]. split; [reflexivity|]. split; reflexivity.
  - intros r2 d2 H1 H2 H3 H4.
    rewrite (Once _ r2 d2 (negb b)); try assumption.
    rewrite negb_involutive. reflexivity.
Qed.

(** A call without a value whose read returns a current value that is not a
    boolean. *)
Lemma toggle_device_refuses env up args log r deviceData cur :
  value args = None ->
  truthy (optional_value (deviceId args)) = true ->
  has_credentials env = true ->
  up log (read_request env args) = Fulfilled r ->
  ok r = true ->
  body_json r = inr deviceData ->
  current_value deviceData (capability_of args) = inr cur ->
  is_boolean cur = false ->
  toggle_device env up args log =
  (inr (toggle_failure args
          (ThrownError (not_boolean_message (capability_of args)))),
   (log ++ [read_exchange env up args log])%list).
Proof.
  intros Hv Hid Hc Hup Hok Hjson Hcur Hb.
  rewrite (toggle_device_after_read env up args log r deviceData cur);
    try assumption.
  destruct cur; try reflexivity. discriminate Hb.
Qed.

(** C3. A call without a value whose fetched current value is present but
    not boolean returns an isError envelope whose details are
    [Cannot toggle capability "<capability>" - current value is not boolean],
    and the read is the only request: no PUT is issued. *)
Theorem toggle_device_not_boolean env up args log r deviceData cur :
  value args = None ->
  truthy (optional_value (deviceId args)) = true ->
  has_credentials env = true ->
  up log (read_request env args) = Fulfilled r ->
  ok r = true ->
  body_json r = inr deviceData ->
  current_value deviceData (capability_of args) = inr cur ->
  cur <> VUndefined ->
  is_boolean cur = false ->
  exists e,
    fst (toggle_device env up args log) = inr e /\
    isError e = Some true /\
    payload_text e =
      JSON_stringify_object
        [("error", VStr "Failed to toggle Homey device");
         ("details",
          VStr ("Cannot toggle capability " ++ dquote ++ capability_of args ++
                dquote ++ " - current value is not boolean"));
         ("deviceId", optional_value (deviceId args))] 0 /\
    issued log (snd (toggle_device env up args log)) =
      [read_exchange env up args log] /\
    filter is_write (issued log (snd (toggle_device env up args log))) = [].
Proof.
  intros Hv Hid Hc Hup Hok Hjson Hcur _ Hb.
  rewrite (toggle_device_refuses env up args log r deviceData cur);
    try assumption.
  eexists. cbn [fst snd]. rewrite issued_app.
  repeat (split; [reflexivity|]). reflexivity.
Qed.

(** C9. A call without a value for a device whose capabilitiesObj lacks the
    capability, or that has no capabilitiesObj, fails with the same
    "current value is not boolean" details as for a value of another type,
    and issues no PUT. *)
Theorem toggle_device_capability_absent env up args log r top device :
  value args = None ->
  truthy (optional_value (deviceId args)) = true ->
  has_credentials env = true ->
  up log (read_request env args) = Fulfilled r ->
  ok r = true ->
  body_json r = inr (VObj top) ->
  lookup "result" top = Some (VObj device) ->
  (lookup "capabilitiesObj" device = None \/
   exists caps, lookup "capabilitiesObj" device = Some (VObj caps) /\
                lookup (capability_of args) caps = None) ->
  exists e,
    fst (toggle_device env up args log) = inr e /\
    isError e = Some true /\
    payload_text e =
      JSON_stringify_object
        [("error", VStr "Failed to toggle Homey device");
         ("details",
          VStr ("Cannot toggle capability " ++ dquote ++ capability_of args ++
                dquote ++ " - current value is not boolean"));
         ("deviceId", optional_value (deviceId args))] 0 /\
    issued log (snd (toggle_device env up args log)) =
      [read_exchange env up args log] /\
    filter is_write (issued log (snd (toggle_device env up args log))) = [].
Proof.
  intros Hv Hid Hc Hup Hok Hjson Hres Habs.
  assert (Hcur : current_value (VObj top) (capability_of args) = inr VUndefined).
  { unfold current_value, read, bind_sum. cbn [nullish get]. rewrite Hres.
    cbn [nullish get].
    destruct Habs as [H | [caps [H1 H2]]].
    - rewrite H. reflexivity.
    - rewrite H1. unfold read_opt. cbn [nullish get]. rewrite H2. reflexivity. }
  rewrite (toggle_device_refuses env up args log r (VObj top) VUndefined);
    try assumption; try reflexivity.
  eexists. cbn [fst snd]. rewrite issued_app.
  repeat (split; [reflexivity|]). reflexivity.
Qed.

(** C4. A call whose deviceId is falsy or absent returns an isError envelope
    whose details are [deviceId is required], and the log of requests is
    unchanged: no request is made. *)
Theorem toggle_device_requires_deviceId env up args log :
  truthy (optional_value (deviceId args)) = false ->
  exists e details,
    toggle_device env up args log = (inr e, log) /\
    isError e = Some true /\
    payload_text e =
      JSON_stringify_object
        [("error", VStr "Failed to toggle Homey device");
         ("details", VStr details);
         ("deviceId", optional_value (deviceId args))] 0 /\
    details = "deviceId is required" /\
    includes details "deviceId is required" = true /\
    issued log (snd (toggle_device env up args log)) = [].
Proof.
  intros Hid. rewrite toggle_device_run. unfold toggle_outcome. rewrite Hid.
  cbn [negb snd]. rewrite issued_same.
  eexists. eexists. split; [reflexivity|].
  repeat (split; [reflexivity|]). reflexivity.
Qed.

Lemma bind_returns {S A B} (m : Effect S A) (k : A -> Effect S B) s b s' :
  bind m k s = (inr b, s') ->
  exists a s1, m s = (inr a, s1) /\ k a s1 = (inr b, s').
Proof.
  unfold bind. destruct (m s) as [[e|a] s1]; intros H; [discriminate|].
  exists a, s1. split; [reflexivity | exact H].
Qed.

(** The [try] block of [toggle_device] returns the success envelope only. *)
Lemma toggle_device_try_returns env up args log e log' :
  toggle_device_try env up args log = (inr e, log') ->
  exists v, e = toggle_success args v.
Proof.
  unfold toggle_device_try. intros H.
  apply bind_returns in H. destruct H as [u [log1 [_ H]]].
  apply bind_returns in H. destruct H as [v [log2 [_ H]]].
  apply bind_returns in H. destruct H as [x [log3 [_ H]]].
  unfold ret in H. inversion H. exists v. reflexivity.
Qed.

(** The handler [toggle_device] always returns an envelope: the one of its
    [try] block, or the failure envelope for what the block threw. *)
Lemma toggle_device_by_cases env up args log :
  match toggle_device_try env up args log with
  | (inr e, log') =>
      toggle_device env up args log = (inr e, log') /\
      exists v, e = toggle_success args v
  | (inl t, log') =>
      toggle_device env up args log = (inr (toggle_failure args t), log')
  end.
Proof.
  unfold toggle_device, try_catch.
  destruct (toggle_device_try env up args log) as [[t|e] log'] eqn:E.
  - reflexivity.
  - split; [reflexivity | exact (toggle_device_try_returns _ _ _ _ _ _ E)].
Qed.

(** C10. When deviceId was not supplied the call fails and the text of the
    envelope is the JSON of an object with the keys [error] and [details]
    only: the undefined [deviceId] is dropped.  In every failure envelope of
    the handler the key [deviceId] is serialised exactly when the caller
    supplied one. *)
Theorem toggle_device_failure_deviceId_key env up args log :
  (deviceId args = None ->
   exists e,
     toggle_device env up args log = (inr e, log) /\
     isError e = Some true /\
     payload_text e =
       JSON_stringify_object
         [("error", VStr "Failed to toggle Homey device");
          ("details", VStr "deviceId is required")] 0 /\
     payload_text e =
       "{" ++ QuoteJSONString "error" ++ ":" ++
       QuoteJSONString "Failed to toggle Homey device" ++ "," ++
       QuoteJSONString "details" ++ ":" ++
       QuoteJSONString "deviceId is required" ++ "}" /\
     serialized_keys
       [("error", VStr "Failed to toggle Homey device");
        ("details", VStr "deviceId is required");
        ("deviceId", optional_value (deviceId args))] = ["error"; "details"]) /\
  (forall e,
     fst (toggle_device env up args log) = inr e ->
     isError e = Some true ->
     exists details,
       payload_text e =
         JSON_stringify_object
           [("error", VStr "Failed to toggle Homey device");
            ("details", VStr details);
            ("deviceId", optional_value (deviceId args))] 0 /\
       serialized_keys
         [("error", VStr "Failed to toggle Homey device");
          ("details", VStr details);
          ("deviceId", optional_value (deviceId args))] =
         "error" :: "details" ::
         match deviceId args with Some _ => ["deviceId"] | None => [] end /\
       (In "deviceId"
          (serialized_keys
             [("error", VStr "Failed to toggle Homey device");
              ("details", VStr details);
              ("deviceId", optional_value (deviceId args))]) <->
        deviceId args <> None)).
Proof.
  split.
  - intros Hid. rewrite toggle_device_run. unfold toggle_outcome.
    rewrite Hid. cbn [optional_value truthy negb].
    eexists. split; [reflexivity|]. unfold toggle_failure, toggle_failure_payload.
    rewrite Hid. repeat (split; [reflexivity|]). reflexivity.
  - intros e He Herr.
    pose proof (toggle_device_by_cases env up args log) as C.
    destruct (toggle_device_try env up args log) as [[t|e0] log'].
    + rewrite C in He. cbn [fst] in He. inversion He; subst e.
      exists (error_message t). split; [reflexivity|].
      destruct (deviceId args) as [d|]; cbn.
      * split; [reflexivity|]. split; [intros _; discriminate | intros _; auto].
      * split; [reflexivity|].
        split; [intros [H|[H|[]]]; discriminate | intros H; contradiction].
    + destruct C as [C [v Hv]]. rewrite C in He. cbn [fst] in He.
      inversion He; subst. discriminate Herr.
Qed.

End ToggleDevice.

(** *** list_devices and the answers that are not ok *)

Section ListDevices.
Import Homey HomeyFacts.

Lemma normalize_device_defined (device : JsValue) :
  nullish device = false -> exists v, normalize_device device = inr v.
Proof.
  intros H. unfold normalize_device, read. rewrite H. cbn [bind_sum].
  eexists. reflexivity.
Qed.

Lemma map_throwing_length {A B} (f : A -> Thrown + B) (l : list A) (l' : list B) :
  map_throwing f l = inr l' -> length l' = length l.
Proof.
  revert l'. induction l as [|x l IH]; intros l' H; cbn in H.
  - inversion H. reflexivity.
  - destruct (f x) as [e|y]; [discriminate|]. cbn in H.
    destruct (map_throwing f l) as [e|ys]; [discriminate|]. cbn in H.
    inversion H. cbn. f_equal. apply IH. reflexivity.
Qed.

Lemma map_throwing_defined {A B} (f : A -> Thrown + B) (P : A -> Prop) (l : list A) :
  (forall x, P x -> exists y, f x = inr y) ->
  Forall P l -> exists l', map_throwing f l = inr l'.
Proof.
  intros Hf H. induction H as [|x l Hx _ [ys IH]].
  - exists []. reflexivity.
  - destruct (Hf x Hx) as [y Hy]. exists (y :: ys). cbn.
    rewrite Hy. cbn. rewrite IH. reflexivity.
Qed.

(** The [try] block of [list_devices] returns the success envelope only. *)
Lemma list_devices_try_returns env up log e log' :
  list_devices_try env up log = (inr e, log') ->
  exists devices, e = list_success devices.
Proof.
  unfold list_devices_try. intros H.
  apply bind_returns in H. destruct H as [data [log1 [_ H]]].
  apply bind_returns in H. destruct H as [result [log2 [_ H]]].
  apply bind_returns in H. destruct H as [devices [log3 [_ H]]].
  unfold ret in H. inversion H. exists devices. reflexivity.
Qed.

Lemma list_devices_by_cases env up log :
  match list_devices_try env up log with
  | (inr e, log') =>
      list_devices env up log = (inr e, log') /\
      exists devices, e = list_success devices
  | (inl t, log') => list_devices env up log = (inr (list_failure t), log')
  end.
Proof.
  unfold list_devices, try_catch.
  destruct (list_devices_try env up log) as [[t|e] log'] eqn:E.
  - reflexivity.
  - split; [reflexivity | exact (list_devices_try_returns _ _ _ _ _ E)].
Qed.

(** C6. Whenever [list_devices] returns an envelope without [isError], its
    text is the JSON of [{ devices, count }] with [count] the length of
    [devices]; for an upstream list of devices (none of them null) the
    handler succeeds and [count] is the number of upstream devices; for the
    empty list the text is the JSON of [{ devices: [], count: 0 }]. *)
Theorem list_devices_count env up log :
  (forall e,
     fst (list_devices env up log) = inr e ->
     isError e = None ->
     exists devices,
       payload_text e =
         JSON_stringify_object
           [("devices", VArr devices);
            ("count", VNum (NInt (Z.of_nat (length devices))))] 2) /\
  (forall r data items,
     has_credentials env = true ->
     up log (list_request env) = Fulfilled r ->
     ok r = true ->
     body_json r = inr data ->
     read data "result" = inr (VArr items) ->
     Forall (fun device => nullish device = false) items ->
     exists e devices,
       fst (list_devices env up log) = inr e /\
       isError e = None /\
       map_throwing normalize_device items = inr devices /\
       length devices = length items /\
       payload_text e =
         JSON_stringify_object
           [("devices", VArr devices);
            ("count", VNum (NInt (Z.of_nat (length items))))] 2) /\
  (forall r data,
     has_credentials env = true ->
     up log (list_request env) = Fulfilled r ->
     ok r = true ->
     body_json r = inr data ->
     read data "result" = inr (VArr []) ->
     exists e,
       fst (list_devices env up log) = inr e /\
       isError e = None /\
       payload_text e =
         JSON_stringify_object
           [("devices", VArr []); ("count", VNum (NInt 0))] 2 /\
       payload_text e =
         "{" ++ newline ++ "  " ++ QuoteJSONString "devices" ++ ": []," ++
         newline ++ "  " ++ QuoteJSONString "count" ++ ": 0" ++ newline ++ "}").
Proof.
  assert (Run : forall r data items,
    has_credentials env = true ->
    up log (list_request env) = Fulfilled r -> ok r = true ->
    body_json r = inr data -> read data "result" = inr (VArr items) ->
    forall devices, map_throwing normalize_device items = inr devices ->
    fst (list_devices env up log) = inr (list_success devices)).
  { intros r data items Hc Hup Hok Hjson Hres devices Hmap.
    rewrite list_devices_run. unfold list_outcome, request_outcome.
    rewrite Hc. cbv zeta. fold (list_request env).
    rewrite Hup, Hok, Hjson, Hres. cbn [map_devices]. rewrite Hmap.
    reflexivity. }
  split; [|split].
  - intros e He Herr.
    pose proof (list_devices_by_cases env up log) as C.
    destruct (list_devices_try env up log) as [[t|e0] log'].
    + rewrite C in He. cbn [fst] in He. inversion He; subst e.
      discriminate Herr.
    + destruct C as [C [devices Hd]]. rewrite C in He. cbn [fst] in He.
      inversion He; subst. exists devices. reflexivity.
  - intros r data items Hc Hup Hok Hjson Hres Hall.
    destruct (map_throwing_defined normalize_device _ items
                normalize_device_defined Hall) as [devices Hmap].
    exists (list_success devices), devices.
    split; [exact (Run r data items Hc Hup Hok Hjson Hres devices Hmap)|].
    split; [reflexivity|]. split; [exact Hmap|].
    pose proof (map_throwing_length _ _ _ Hmap) as L.
    split; [exact L|]. rewrite <- L. reflexivity.
  - intros r data Hc Hup Hok Hjson Hres.
    exists (list_success []).
    split; [exact (Run r data [] Hc Hup Hok Hjson Hres [] eq_refl)|].
    repeat (split; [reflexivity|]). reflexivity.
Qed.

End ListDevices.

Section NotOk.
Import Homey HomeyFacts.













End NotOk.

(** *** The handlers of the server with the class *)

Section MockHandlers.
Import HomeyMock.

(** A handler of this server: a [try] block whose envelopes have no
    [isError], and the shared [catch] block. *)
Lemma handler_by_cases {S} (body : Effect S Envelope) (s : S) :
  (forall e s', body s = (inr e, s') -> isError e = None) ->
  match body s with
  | (inr e, s') =>
      try_catch body handler_catch s = (inr e, s') /\ isError e = None
  | (inl t, s') =>
      match message_of t with
      | inr message =>
          try_catch body handler_catch s = (inr (error_envelope message), s')
      | inl t' => try_catch body handler_catch s = (inl t', s')
      end
  end.
Proof.
  intros Hbody. unfold try_catch.
  destruct (body s) as [[t|e] s'] eqn:E.
  - unfold handler_catch, bind, lift.
    destruct (message_of t) as [t'|message]; reflexivity.
  - split; [reflexivity | exact (Hbody e s' eq_refl)].
Qed.

Lemma mock_list_devices_try_returns {S} (api : HomeyApi S) s e s' :
  list_devices_try api s = (inr e, s') -> isError e = None.
Proof.
  unfold list_devices_try. intros H.
  apply bind_returns in H. destruct H as [devices [s1 [_ H]]].
  inversion H. reflexivity.
Qed.

Lemma mock_toggle_device_try_returns {S} (api : HomeyApi S) deviceId s e s' :
  toggle_device_try api deviceId s = (inr e, s') -> isError e = None.
Proof.
  unfold toggle_device_try. intros H.
  apply bind_returns in H. destruct H as [result [s1 [_ H]]].
  inversion H. reflexivity.
Qed.

Lemma mock_list_flows_try_returns {S} (api : HomeyApi S) s e s' :
  list_flows_try api s = (inr e, s') -> isError e = None.
Proof.
  unfold list_flows_try. intros H.
  apply bind_returns in H. destruct H as [flows [s1 [_ H]]].
  inversion H. reflexivity.
Qed.

Lemma ensure_authenticated_run this :
  ensure_authenticated this = (inr tt, authenticated this).
Proof.
  unfold ensure_authenticated, authenticated, authenticate.
  destruct (negb (truthy (Homey.optional_value (accessToken this))));
    reflexivity.
Qed.

Lemma find_device_cases (devices : list JsValue) (deviceId : option string) :
  find_device devices deviceId = VUndefined \/
  In (find_device devices deviceId) devices.
Proof.
  unfold find_device.
  destruct (find _ devices) as [d|] eqn:E; [right | left; reflexivity].
  exact (proj1 (find_some _ _ E)).
Qed.

(** The methods of the class throw instances of Error only. *)
Lemma HomeyApiClient_toggleDevice_throws deviceId this t this' :
  HomeyApiClient_toggleDevice deviceId this = (inl t, this') ->
  exists message, t = ThrownError message.
Proof.
  unfold HomeyApiClient_toggleDevice, HomeyApiClient_listDevices.
  unfold bind at 1. rewrite ensure_authenticated_run.
  unfold bind at 1. unfold bind at 1. rewrite ensure_authenticated_run.
  unfold ret at 1.
  destruct (find_device_cases mock_devices deviceId) as [E | E].
  - rewrite E. cbn [truthy negb]. unfold throw. intros H. inversion H.
    eexists. reflexivity.
  - revert E. generalize (find_device mock_devices deviceId) as device.
    intros device [<- | [<- | [<- | []]]];
      vm_compute; intros H; inversion H; eexists; reflexivity.
Qed.

Lemma HomeyApiClient_listDevices_run this :
  HomeyApiClient_listDevices this = (inr mock_devices, authenticated this).
Proof.
  unfold HomeyApiClient_listDevices, bind. rewrite ensure_authenticated_run.
  reflexivity.
Qed.

Lemma HomeyApiClient_listFlows_run this :
  HomeyApiClient_listFlows this = (inr mock_flows, authenticated this).
Proof.
  unfold HomeyApiClient_listFlows, bind. rewrite ensure_authenticated_run.
  reflexivity.
Qed.

(** C5. Each handler of both servers returns the envelope of its [try]
    block, which has no [isError], when the block returns, and an envelope
    with [isError: true] when the block throws; the handlers of homey.ts
    and those over the class HomeyApiClient always return an envelope.  (A
    handler of the second server returns no envelope at all when its client
    throws undefined or null, on which [error.message] throws.) *)
Theorem isError_exactly_on_failure :
  (forall env up log,
     match Homey.list_devices_try env up log with
     | (inr e, log') =>
         Homey.list_devices env up log = (inr e, log') /\ isError e = None
     | (inl t, log') =>
         exists e, Homey.list_devices env up log = (inr e, log') /\
                   isError e = Some true
     end) /\
  (forall env up args log,
     match Homey.toggle_device_try env up args log with
     | (inr e, log') =>
         Homey.toggle_device env up args log = (inr e, log') /\ isError e = None
     | (inl t, log') =>
         exists e, Homey.toggle_device env up args log = (inr e, log') /\
                   isError e = Some true
     end) /\
  (forall S (api : HomeyApi S) s,
     match list_devices_try api s with
     | (inr e, s') => list_devices api s = (inr e, s') /\ isError e = None
     | (inl t, s') =>
         match message_of t with
         | inr _ => exists e, list_devices api s = (inr e, s') /\
                              isError e = Some true
         | inl t' => list_devices api s = (inl t', s')
         end
     end) /\
  (forall S (api : HomeyApi S) deviceId s,
     match toggle_device_try api deviceId s with
     | (inr e, s') => toggle_device api deviceId s = (inr e, s') /\ isError e = None
     | (inl t, s') =>
         match message_of t with
         | inr _ => exists e, toggle_device api deviceId s = (inr e, s') /\
                              isError e = Some true
         | inl t' => toggle_device api deviceId s = (inl t', s')
         end
     end) /\
  (forall S (api : HomeyApi S) s,
     match list_flows_try api s with
     | (inr e, s') => list_flows api s = (inr e, s') /\ isError e = None
     | (inl t, s') =>
         match message_of t with
         | inr _ => exists e, list_flows api s = (inr e, s') /\
                              isError e = Some true
         | inl t' => list_flows api s = (inl t', s')
         end
     end) /\
  (forall this deviceId,
     (exists e this',
        list_devices HomeyApiClient_api this = (inr e, this') /\
        isError e = None) /\
     (exists e this',
        toggle_device HomeyApiClient_api deviceId this = (inr e, this') /\
        (isError e = None \/ isError e = Some true)) /\
     (exists e this',
        list_flows HomeyApiClient_api this = (inr e, this') /\
        isError e = None)).
Proof.
  assert (Mock : forall S (body : Effect S Envelope) s,
    (forall e s', body s = (inr e, s') -> isError e = None) ->
    match body s with
    | (inr e, s') =>
        try_catch body handler_catch s = (inr e, s') /\ isError e = None
    | (inl t, s') =>
        match message_of t with
        | inr _ => exists e, try_catch body handler_catch s = (inr e, s') /\
                             isError e = Some true
        | inl t' => try_catch body handler_catch s = (inl t', s')
        end
    end).
  { intros S body s Hbody. pose proof (handler_by_cases body s Hbody) as C.
    destruct (body s) as [[t|e] s']; [|exact C].
    destruct (message_of t) as [t'|message]; [exact C|].
    eexists. split; [exact C | reflexivity]. }
  split; [|split; [|split; [|split; [|split]]]].
  - intros env up log.
    pose proof (list_devices_by_cases env up log) as C.
    destruct (Homey.list_devices_try env up log) as [[t|e] log'].
    + eexists. split; [exact C | reflexivity].
    + destruct C as [C [devices ->]]. split; [exact C | reflexivity].
  - intros env up args log.
    pose proof (toggle_device_by_cases env up args log) as C.
    destruct (Homey.toggle_device_try env up args log) as [[t|e] log'].
    + eexists. split; [exact C | reflexivity].
    + destruct C as [C [v ->]]. split; [exact C | reflexivity].
  - intros S api s. apply (Mock S (list_devices_try api) s).
    intros e s'. apply mock_list_devices_try_returns.
  - intros S api deviceId s. apply (Mock S (toggle_device_try api deviceId) s).
    intros e s'. apply mock_toggle_device_try_returns.
  - intros S api s. apply (Mock S (list_flows_try api) s).
    intros e s'. apply mock_list_flows_try_returns.
  - intros this deviceId. split; [|split].
    + unfold list_devices, try_catch, list_devices_try, bind.
      cbn [listDevices HomeyApiClient_api].
      rewrite HomeyApiClient_listDevices_run. eexists. eexists.
      split; reflexivity.
    + pose proof (handler_by_cases
        (toggle_device_try HomeyApiClient_api deviceId) this
        (fun e s' => mock_toggle_device_try_returns _ _ _ e s')) as C.
      fold (toggle_device HomeyApiClient_api deviceId) in C.
      destruct (toggle_device_try HomeyApiClient_api deviceId this)
        as [[t|e] this'] eqn:E.
      * assert (exists message, t = ThrownError message) as [message ->].
        { unfold toggle_device_try, bind in E.
          cbn [toggleDevice HomeyApiClient_api] in E.
          destruct (HomeyApiClient_toggleDevice deviceId this)
            as [[t0|result] this0] eqn:E0; [|discriminate].
          inversion E; subst.
          exact (HomeyApiClient_toggleDevice_throws _ _ _ _ E0). }
        cbn [message_of] in C. eexists. eexists.
        split; [exact C | right; reflexivity].
      * destruct C as [C N]. eexists. eexists. split; [exact C | left; exact N].
    + unfold list_flows, try_catch, list_flows_try, bind.
      cbn [listFlows HomeyApiClient_api].
      rewrite HomeyApiClient_listFlows_run. eexists. eexists.
      split; reflexivity.
Qed.

End MockHandlers.

(** *** The scenarios of the tests *)

Section Scenarios.
Import Homey HomeyFacts.

Lemma toggle_device_negates_witness :
  issued [] (snd (toggle_device test_env (switch false) toggle_d1 [])) =
    [read_exchange test_env (switch false) toggle_d1 [];
     write_exchange test_env (switch false) toggle_d1 (PBool true)
       [read_exchange test_env (switch false) toggle_d1 []]] /\
  (exists e,
     fst (toggle_device test_env (switch false) toggle_d1 []) = inr e /\
     isError e = None /\
     payload_text e =
       JSON_stringify_object
         [("success", VBool true);
          ("deviceId", VStr "d1");
          ("capability", VStr "onoff");
          ("value", VBool true);
          ("message", VStr "Successfully set onoff to true")] 0) /\
  issued (snd (toggle_device test_env (switch false) toggle_d1 []))
    (snd (toggle_device test_env (switch false) toggle_d1
            (snd (toggle_device test_env (switch false) toggle_d1 [])))) =
    [read_exchange test_env (switch false) toggle_d1
       (snd (toggle_device test_env (switch false) toggle_d1 []));
     write_exchange test_env (switch false) toggle_d1 (PBool false)
       (snd (toggle_device test_env (switch false) toggle_d1 []) ++
        [read_exchange test_env (switch false) toggle_d1
           (snd (toggle_device test_env (switch false) toggle_d1 []))])].
Proof.
  destruct (toggle_device_negates test_env (switch false) toggle_d1 []
              (ok_response (device_answer "d1" (VBool false)))
              (device_answer "d1" (VBool false)) false
              eq_refl eq_refl eq_refl eq_refl eq_refl eq_refl eq_refl)
    as [W1 [_ [W3 W4]]].
  split; [exact W1|]. split.
  - exact (W3 (ok_response (VObj [])) (VObj []) eq_refl eq_refl eq_refl).
  - exact (W4 (ok_response (device_answer "d1" (VBool true)))
              (device_answer "d1" (VBool true))
              eq_refl eq_refl eq_refl eq_refl).
Defined.

Lemma toggle_device_not_boolean_witness :
  exists e,
    fst (toggle_device test_env (answers (device_answer "d1" (VNum (NInt 21))))
           toggle_d1 []) = inr e /\
    isError e = Some true /\
    payload_text e =
      JSON_stringify_object
        [("error", VStr "Failed to toggle Homey device");
         ("details",
          VStr ("Cannot toggle capability " ++ dquote ++ "onoff" ++ dquote ++
                " - current value is not boolean"));
         ("deviceId", VStr "d1")] 0 /\
    issued [] (snd (toggle_device test_env
                      (answers (device_answer "d1" (VNum (NInt 21))))
                      toggle_d1 [])) =
      [read_exchange test_env (answers (device_answer "d1" (VNum (NInt 21))))
         toggle_d1 []] /\
    filter is_write
      (issued [] (snd (toggle_device test_env
                         (answers (device_answer "d1" (VNum (NInt 21))))
                         toggle_d1 []))) = [].
Proof.
  apply (toggle_device_not_boolean test_env
           (answers (device_answer "d1" (VNum (NInt 21)))) toggle_d1 []
           (ok_response (device_answer "d1" (VNum (NInt 21))))
           (device_answer "d1" (VNum (NInt 21))) (VNum (NInt 21)));
    try reflexivity.
  discriminate.
Defined.

Lemma toggle_device_capability_absent_witness :
  exists e,
    fst (toggle_device test_env
           (answers (VObj [("result", VObj [("id", VStr "d1")])]))
           toggle_d1 []) = inr e /\
    isError e = Some true /\
    payload_text e =
      JSON_stringify_object
        [("error", VStr "Failed to toggle Homey device");
         ("details",
          VStr ("Cannot toggle capability " ++ dquote ++ "onoff" ++ dquote ++
                " - current value is not boolean"));
         ("deviceId", VStr "d1")] 0 /\
    issued [] (snd (toggle_device test_env
                      (answers (VObj [("result", VObj [("id", VStr "d1")])]))
                      toggle_d1 [])) =
      [read_exchange test_env
         (answers (VObj [("result", VObj [("id", VStr "d1")])])) toggle_d1 []] /\
    filter is_write
      (issued [] (snd (toggle_device test_env
                         (answers (VObj [("result", VObj [("id", VStr "d1")])]))
                         toggle_d1 []))) = [].
Proof.
  apply (toggle_device_capability_absent test_env
           (answers (VObj [("result", VObj [("id", VStr "d1")])])) toggle_d1 []
           (ok_response (VObj [("result", VObj [("id", VStr "d1")])]))
           [("result", VObj [("id", VStr "d1")])] [("id", VStr "d1")]);
    try reflexivity.
  left. reflexivity.
Defined.

Lemma toggle_device_requires_deviceId_witness :
  exists e details,
    toggle_device test_env always_ok toggle_nothing [] = (inr e, []) /\
    isError e = Some true /\
    payload_text e =
      JSON_stringify_object
        [("error", VStr "Failed to toggle Homey device");
         ("details", VStr details);
         ("deviceId", VUndefined)] 0 /\
    details = "deviceId is required" /\
    includes details "deviceId is required" = true /\
    issued [] (snd (toggle_device test_env always_ok toggle_nothing [])) = [].
Proof.
  apply (toggle_device_requires_deviceId test_env always_ok toggle_nothing []).
  reflexivity.
Defined.

Lemma toggle_device_failure_deviceId_key_witness :
  (exists e,
     toggle_device test_env always_ok toggle_nothing [] = (inr e, []) /\
     isError e = Some true /\
     payload_text e =
       JSON_stringify_object
         [("error", VStr "Failed to toggle Homey device");
          ("details", VStr "deviceId is required")] 0 /\
     payload_text e =
       "{" ++ QuoteJSONString "error" ++ ":" ++
       QuoteJSONString "Failed to toggle Homey device" ++ "," ++
       QuoteJSONString "details" ++ ":" ++
       QuoteJSONString "deviceId is required" ++ "}" /\
     serialized_keys
       [("error", VStr "Failed to toggle Homey device");
        ("details", VStr "deviceId is required");
        ("deviceId", VUndefined)] = ["error"; "details"]) /\
  (exists e,
     fst (toggle_device test_env not_found set_invalid_device []) = inr e /\
     exists details,
       payload_text e =
         JSON_stringify_object
           [("error", VStr "Failed to toggle Homey device");
            ("details", VStr details);
            ("deviceId", VStr "invalid-device")] 0 /\
       serialized_keys
         [("error", VStr "Failed to toggle Homey device");
          ("details", VStr details);
          ("deviceId", VStr "invalid-device")] =
         ["error"; "details"; "deviceId"] /\
       (In "deviceId"
          (serialized_keys
             [("error", VStr "Failed to toggle Homey device");
              ("details", VStr details);
              ("deviceId", VStr "invalid-device")]) <->
        Some "invalid-device" <> None)).
Proof.
  split.
  - apply (proj1 (toggle_device_failure_deviceId_key test_env always_ok
                    toggle_nothing [])).
    reflexivity.
  - eexists. split; [reflexivity|].
    apply (proj2 (toggle_device_failure_deviceId_key test_env not_found
                    set_invalid_device [])); reflexivity.
Defined.

Lemma list_devices_count_witness :
  (exists e,
     fst (list_devices test_env (answers (VObj [("result", VArr test_devices)])) [])
       = inr e /\
     exists devices,
       payload_text e =
         JSON_stringify_object
           [("devices", VArr devices);
            ("count", VNum (NInt (Z.of_nat (length devices))))] 2) /\
  (exists e devices,
     fst (list_devices test_env (answers (VObj [("result", VArr test_devices)])) [])
       = inr e /\
     isError e = None /\
     map_throwing normalize_device test_devices = inr devices /\
     length devices = 2 /\
     payload_text e =
       JSON_stringify_object
         [("devices", VArr devices); ("count", VNum (NInt 2))] 2) /\
  (exists e,
     fst (list_devices test_env (answers (VObj [("result", VArr [])])) []) = inr e /\
     isError e = None /\
     payload_text e =
       JSON_stringify_object [("devices", VArr []); ("count", VNum (NInt 0))] 2 /\
     payload_text e =
       "{" ++ newline ++ "  " ++ QuoteJSONString "devices" ++ ": []," ++
       newline ++ "  " ++ QuoteJSONString "count" ++ ": 0" ++ newline ++ "}").
Proof.
  split; [|split].
  - eexists. split; [reflexivity|].
    apply (proj1 (list_devices_count test_env
                    (answers (VObj [("result", VArr test_devices)])) []));
      reflexivity.
  - apply (proj1 (proj2 (list_devices_count test_env
                    (answers (VObj [("result", VArr test_devices)])) []))
             (ok_response (VObj [("result", VArr test_devices)]))
             (VObj [("result", VArr test_devices)]) test_devices);
      try reflexivity.
    repeat constructor.
  - apply (proj2 (proj2 (list_devices_count test_env
                    (answers (VObj [("result", VArr [])])) []))
             (ok_response (VObj [("result", VArr [])]))
             (VObj [("result", VArr [])]));
      reflexivity.
Defined.


End Scenarios.

(** *** The tests of the repository, run on the embedding *)

Section RepositoryTests.
Import Homey.

(** should fetch and return a list of devices *)
Example test_list_devices :
  map request
    (snd (list_devices test_env (answers (VObj [("result", VArr test_devices)])) []))
  = [{| url := "https://test-api.homey.com/api/devices"; method := "GET";
        headers := test_headers; body := None |}] /\
  exists devices,
    fst (list_devices test_env (answers (VObj [("result", VArr test_devices)])) [])
    = inr (text_envelope
             (JSON_stringify_object
                [("devices", VArr devices); ("count", VNum (NInt 2))] 2)
             None) /\
    length devices = 2 /\
    get (nth 0 devices VUndefined) "name" = VStr "Living Room Light" /\
    get (nth 0 devices VUndefined) "zone" = VStr "Living Room".
Proof.
  split; [reflexivity|]. eexists. split; [reflexivity|].
  repeat split.
Qed.

(** should handle API errors gracefully *)
Example test_list_devices_401 :
  fst (list_devices test_env unauthorized []) =
  inr (text_envelope
         (JSON_stringify_object
            [("error", VStr "Failed to list Homey devices");
             ("details",
              VStr "Homey API request failed: 401 Unauthorized - Invalid credentials")]
            0)
         (Some true)) /\
  includes "Homey API request failed: 401 Unauthorized - Invalid credentials" "401"
  = true.
Proof. split; reflexivity. Qed.

(** should toggle a device with explicit value *)
Example test_toggle_explicit_value :
  map request (snd (toggle_device test_env always_ok set_device_1 [])) =
  [{| url := "https://test-api.homey.com/api/devices/device-1/capabilities/onoff";
      method := "PUT"; headers := test_headers;
      body := Some ("{" ++ QuoteJSONString "value" ++ ":true}") |}] /\
  fst (toggle_device test_env always_ok set_device_1 []) =
  inr (text_envelope
         (JSON_stringify_object
            [("success", VBool true); ("deviceId", VStr "device-1");
             ("capability", VStr "onoff"); ("value", VBool true);
             ("message", VStr "Successfully set onoff to true")] 0)
         None).
Proof. split; reflexivity. Qed.

(** should toggle a device by fetching current state when value is not
    provided *)
Example test_toggle_fetches_state :
  map (fun x => (method (request x), url (request x)))
    (snd (toggle_device test_env off_then_ok toggle_device_1 [])) =
  [("GET", "https://test-api.homey.com/api/devices/device-1");
   ("PUT", "https://test-api.homey.com/api/devices/device-1/capabilities/onoff")] /\
  payload_text
    (match fst (toggle_device test_env off_then_ok toggle_device_1 []) with
     | inr e => e
     | inl _ => text_envelope "" None
     end) =
  "{" ++ QuoteJSONString "success" ++ ":true," ++
  QuoteJSONString "deviceId" ++ ":" ++ QuoteJSONString "device-1" ++ "," ++
  QuoteJSONString "capability" ++ ":" ++ QuoteJSONString "onoff" ++ "," ++
  QuoteJSONString "value" ++ ":true," ++
  QuoteJSONString "message" ++ ":" ++
  QuoteJSONString "Successfully set onoff to true" ++ "}".
Proof. split; reflexivity. Qed.

(** should use default capability "onoff" when not specified *)
Example test_toggle_default_capability :
  map (fun x => url (request x))
    (snd (toggle_device test_env always_ok unset_device_1 [])) =
  ["https://test-api.homey.com/api/devices/device-1/capabilities/onoff"].
Proof. reflexivity. Qed.

(** should handle missing deviceId *)
Example test_toggle_missing_deviceId :
  toggle_device test_env always_ok toggle_nothing [] =
  (inr (text_envelope
          (JSON_stringify_object
             [("error", VStr "Failed to toggle Homey device");
              ("details", VStr "deviceId is required")] 0)
          (Some true)), []).
Proof. reflexivity. Qed.

(** should handle API errors when toggling *)
Example test_toggle_404 :
  fst (toggle_device test_env not_found set_invalid_device []) =
  inr (text_envelope
         (JSON_stringify_object
            [("error", VStr "Failed to toggle Homey device");
             ("details",
              VStr "Homey API request failed: 404 Not Found - Device not found");
             ("deviceId", VStr "invalid-device")] 0)
         (Some true)) /\
  includes "Homey API request failed: 404 Not Found - Device not found" "404"
  = true.
Proof. split; reflexivity. Qed.

(** The three tests of the prompt. *)
Example test_control_device :
  includes (control_device "Living Room Light" None) "toggle" = true /\
  includes (control_device "Living Room Light" None) "Living Room Light" = true /\
  includes (control_device "Bedroom Light" (Some "on")) "on" = true /\
  includes (control_device "Bedroom Light" (Some "on")) "Bedroom Light" = true /\
  includes (control_device "Kitchen Light" (Some "off")) "off" = true /\
  includes (control_device "Kitchen Light" (Some "off")) "Kitchen Light" = true.
Proof. repeat split. Qed.

End RepositoryTests.

(** *** The request helper: credentials, attempts, headers and bodies *)

Section RequestHelper.
Import Homey HomeyFacts.

Lemma unset_falsy (variable : option string) :
  unset variable <-> truthy_string (env_or variable "") = false.
Proof.
  unfold unset, env_or, truthy_string. split.
  - intros [-> | ->]; reflexivity.
  - destruct variable as [v|]; [|auto].
    destruct (String.eqb_spec v "") as [-> | N]; [auto|].
    cbn [negb]. destruct (String.eqb_spec v "") as [E | _]; [contradiction|].
    discriminate.
Qed.

Lemma no_credentials (env : ProcessEnv) :
  unset (env_HOMEY_CLIENT_ID env) \/ unset (env_HOMEY_CLIENT_SECRET env) <->
  has_credentials env = false.
Proof.
  unfold has_credentials, HOMEY_CLIENT_ID, HOMEY_CLIENT_SECRET.
  rewrite !unset_falsy. rewrite andb_false_iff. reflexivity.
Qed.

(** The calls one use of the request helper adds to the log. *)
Lemma request_outcome_issued env up endpoint method_ body_ log :
  issued log (snd (request_outcome env up endpoint method_ body_ log)) =
  if has_credentials env
  then [request_exchange env up endpoint method_ body_ log]
  else [].
Proof.
  unfold request_outcome, request_exchange.
  destruct (has_credentials env); [|apply issued_same].
  cbv zeta.
  destruct (up log _) as [r|t]; [destruct (ok r); [|destruct (body_text r)]|];
    cbn [snd]; apply issued_app.
Qed.

Lemma request_outcome_snd env up endpoint method_ body_ log :
  snd (request_outcome env up endpoint method_ body_ log) =
  if has_credentials env
  then (log ++ [request_exchange env up endpoint method_ body_ log])%list
  else log.
Proof.
  unfold request_outcome, request_exchange.
  destruct (has_credentials env); [|reflexivity].
  cbv zeta.
  destruct (up log _) as [r|t]; [destruct (ok r); [|destruct (body_text r)]|];
    reflexivity.
Qed.

(** X1. When HOMEY_CLIENT_ID or HOMEY_CLIENT_SECRET is unset or empty, the
    request helper throws the configuration Error without calling [fetch],
    and [list_devices] and [toggle_device] (given a deviceId) return an
    isError envelope whose details are that message; the log of calls is
    unchanged. *)
Theorem missing_credentials_fail_before_fetch env up log :
  unset (env_HOMEY_CLIENT_ID env) \/ unset (env_HOMEY_CLIENT_SECRET env) ->
  (forall endpoint method_ body_,
     homeyApiRequest env up endpoint method_ body_ log =
     (inl (ThrownError
        "HOMEY_CLIENT_ID and HOMEY_CLIENT_SECRET environment variables must be set"),
      log)) /\
  list_devices env up log =
    (inr (text_envelope
            (JSON_stringify_object
               [("error", VStr "Failed to list Homey devices");
                ("details",
                 VStr "HOMEY_CLIENT_ID and HOMEY_CLIENT_SECRET environment variables must be set")]
               0)
            (Some true)), log) /\
  (forall args,
     truthy (optional_value (deviceId args)) = true ->
     toggle_device env up args log =
     (inr (text_envelope
             (JSON_stringify_object
                [("error", VStr "Failed to toggle Homey device");
                 ("details",
                  VStr "HOMEY_CLIENT_ID and HOMEY_CLIENT_SECRET environment variables must be set");
                 ("deviceId", optional_value (deviceId args))] 0)
             (Some true)), log)).
Proof.
  intros H. apply no_credentials in H.
  assert (R : forall endpoint method_ body_,
            request_outcome env up endpoint method_ body_ log =
            (inl missing_credentials, log)).
  { intros. unfold request_outcome. rewrite H. reflexivity. }
  split; [|split].
  - intros. rewrite homeyApiRequest_run. apply R.
  - rewrite list_devices_run. unfold list_outcome. rewrite R. reflexivity.
  - intros args Hid. rewrite toggle_device_run. unfold toggle_outcome, write_phase.
    rewrite Hid. cbn [negb].
    destruct (value args); rewrite R; reflexivity.
Qed.

Lemma missing_credentials_fail_before_fetch_witness :
  homeyApiRequest empty_env always_ok "/api/devices" "GET" VUndefined [] =
    (inl (ThrownError
       "HOMEY_CLIENT_ID and HOMEY_CLIENT_SECRET environment variables must be set"),
     []) /\
  snd (list_devices empty_env always_ok []) = [] /\
  snd (toggle_device empty_env always_ok set_device_1 []) = [].
Proof.
  destruct (missing_credentials_fail_before_fetch empty_env always_ok []
              (or_introl (or_introl eq_refl))) as [A [B C]].
  split; [apply A|]. split; [rewrite B; reflexivity|].
  rewrite (C set_device_1 eq_refl). reflexivity.
Defined.

(** X2. The request helper calls [fetch] exactly once when both credentials
    are set and never otherwise: there is no retry, whatever the answer.  A
    rejection of [fetch] and a rejection of [json()] are rethrown as they
    are, and the JSON of an ok answer is returned as it is. *)
Theorem homeyApiRequest_single_attempt env up endpoint method_ body_ log :
  issued log (snd (homeyApiRequest env up endpoint method_ body_ log)) =
    (if has_credentials env
     then [request_exchange env up endpoint method_ body_ log]
     else []) /\
  (has_credentials env = true ->
   (forall t,
      outcome (request_exchange env up endpoint method_ body_ log) = Rejected t ->
      fst (homeyApiRequest env up endpoint method_ body_ log) = inl t) /\
   (forall r,
      outcome (request_exchange env up endpoint method_ body_ log) = Fulfilled r ->
      ok r = true ->
      fst (homeyApiRequest env up endpoint method_ body_ log) = body_json r)).
Proof.
  rewrite homeyApiRequest_run. split; [apply request_outcome_issued|].
  intros Hc. unfold request_outcome, request_exchange. rewrite Hc. cbv zeta.
  cbn [outcome]. split.
  - intros t Ht. rewrite Ht. reflexivity.
  - intros r Hr Hok. rewrite Hr, Hok. reflexivity.
Qed.

Lemma homeyApiRequest_single_attempt_witness :
  fst (homeyApiRequest test_env (rejecting (ThrownError "fetch failed"))
         "/api/devices" "GET" VUndefined []) = inl (ThrownError "fetch failed") /\
  fst (homeyApiRequest test_env no_content "/api/devices" "GET" VUndefined []) =
    inl (ThrownError "Unexpected end of JSON input") /\
  length (issued [] (snd (homeyApiRequest test_env unauthorized
                            "/api/devices" "GET" VUndefined []))) = 1.
Proof.
  split; [|split].
  - apply (proj1 (proj2 (homeyApiRequest_single_attempt test_env
             (rejecting (ThrownError "fetch failed"))
             "/api/devices" "GET" VUndefined []) eq_refl)).
    reflexivity.
  - apply (proj2 (proj2 (homeyApiRequest_single_attempt test_env no_content
             "/api/devices" "GET" VUndefined []) eq_refl)
             {| ok := true; status := 204; statusText := "No Content";
                body_text := inr "";
                body_json := inl (ThrownError "Unexpected end of JSON input") |});
      reflexivity.
  - rewrite (proj1 (homeyApiRequest_single_attempt test_env unauthorized
               "/api/devices" "GET" VUndefined [])).
    reflexivity.
Defined.

(** X3. Every request of the helper carries the client secret as bearer
    token and the JSON content type, keeps the method it was given, and goes
    to the base URL followed by the endpoint, joined as they are; the base
    URL is [https://api.athom.com] when HOMEY_API_URL is unset or empty. *)
Theorem homeyApiRequest_request env up endpoint method_ body_ log x :
  In x (issued log (snd (homeyApiRequest env up endpoint method_ body_ log))) ->
  headers (request x) =
    [("Authorization", "Bearer " ++ HOMEY_CLIENT_SECRET env);
     ("Content-Type", "application/json")] /\
  env_HOMEY_CLIENT_SECRET env = Some (HOMEY_CLIENT_SECRET env) /\
  HOMEY_CLIENT_SECRET env <> "" /\
  method (request x) = method_ /\
  (forall base, env_HOMEY_API_URL env = Some base -> base <> "" ->
     url (request x) = base ++ endpoint) /\
  (unset (env_HOMEY_API_URL env) ->
     url (request x) = "https://api.athom.com" ++ endpoint).
Proof.
  rewrite homeyApiRequest_run, request_outcome_issued.
  destruct (has_credentials env) eqn:Hc; [|intros []].
  intros [<- | []]. cbn [request_exchange request build_request headers method url].
  unfold has_credentials in Hc. apply andb_true_iff in Hc. destruct Hc as [_ Hs].
  assert (S1 : env_HOMEY_CLIENT_SECRET env = Some (HOMEY_CLIENT_SECRET env) /\
               HOMEY_CLIENT_SECRET env <> "").
  { unfold HOMEY_CLIENT_SECRET, env_or, truthy_string in *.
    destruct (env_HOMEY_CLIENT_SECRET env) as [v|]; [|discriminate Hs].
    destruct (String.eqb_spec v "") as [E | N]; [subst v; discriminate Hs|].
    cbn [negb]. split; [reflexivity | exact N]. }
  split; [reflexivity|]. split; [apply S1|]. split; [apply S1|].
  split; [reflexivity|]. unfold HOMEY_API_URL, env_or, truthy_string. split.
  - intros base -> N. destruct (String.eqb_spec base "") as [E | _];
      [contradiction | reflexivity].
  - intros [-> | ->]; reflexivity.
Qed.

Lemma homeyApiRequest_request_witness :
  url (request (request_exchange slash_env always_ok "/api/devices" "GET"
                  VUndefined [])) = "https://test-api.homey.com//api/devices" /\
  url (request (request_exchange default_url_env always_ok "/api/devices" "GET"
                  VUndefined [])) = "https://api.athom.com/api/devices" /\
  headers (request (request_exchange slash_env always_ok "/api/devices" "GET"
                      VUndefined [])) =
    [("Authorization", "Bearer test-client-secret");
     ("Content-Type", "application/json")].
Proof.
  split; [|split].
  - apply (proj1 (proj2 (proj2 (proj2 (proj2
       (homeyApiRequest_request slash_env always_ok "/api/devices" "GET"
          VUndefined [] _ (or_introl eq_refl)))))) "https://test-api.homey.com/").
    + reflexivity.
    + discriminate.
  - apply (proj2 (proj2 (proj2 (proj2 (proj2
       (homeyApiRequest_request default_url_env always_ok "/api/devices" "GET"
          VUndefined [] _ (or_introl eq_refl))))))).
    left. reflexivity.
  - apply (proj1 (homeyApiRequest_request slash_env always_ok "/api/devices"
                    "GET" VUndefined [] _ (or_introl eq_refl))).
Defined.

(** X4. The helper attaches a body only to a request whose method is not
    GET and whose body argument is truthy: a GET never has a body, and a
    body of undefined, null, false, 0 or the empty string is not sent with
    any method; otherwise the body is the JSON text of the argument. *)
Theorem homeyApiRequest_body env up endpoint method_ body_ log x :
  In x (issued log (snd (homeyApiRequest env up endpoint method_ body_ log))) ->
  (method_ = "GET" -> body (request x) = None) /\
  (truthy body_ = false -> body (request x) = None) /\
  (method_ <> "GET" -> truthy body_ = true ->
   body (request x) = JSON_stringify body_ 0 /\
   exists text, body (request x) = Some text).
Proof.
  rewrite homeyApiRequest_run, request_outcome_issued.
  destruct (has_credentials env); [|intros []].
  intros [<- | []]. cbn [request_exchange request build_request body].
  split; [|split].
  - intros ->. rewrite andb_false_r. reflexivity.
  - intros ->. reflexivity.
  - intros N T. rewrite T.
    destruct (String.eqb_spec method_ "GET") as [E | _]; [contradiction|].
    cbn [negb andb]. split; [reflexivity|].
    unfold JSON_stringify.
    destruct (SerializeJSONProperty _ "" body_) as [text|] eqn:E.
    + exists text. reflexivity.
    + apply SerializeJSONProperty_undefined in E. subst body_. discriminate T.
Qed.

Lemma homeyApiRequest_body_witness :
  body (request (request_exchange test_env always_ok "/api/devices" "GET"
                   (VObj [("value", VBool true)]) [])) = None /\
  body (request (request_exchange test_env always_ok "/api/devices/d1" "PUT"
                   (VBool false) [])) = None /\
  body (request (request_exchange test_env always_ok "/api/devices/d1" "PUT"
                   (VObj [("value", VBool false)]) [])) =
    Some ("{" ++ QuoteJSONString "value" ++ ":false}").
Proof.
  split; [|split].
  - apply (proj1 (homeyApiRequest_body test_env always_ok "/api/devices" "GET"
                    (VObj [("value", VBool true)]) [] _ (or_introl eq_refl))).
    reflexivity.
  - apply (proj1 (proj2 (homeyApiRequest_body test_env always_ok
                    "/api/devices/d1" "PUT" (VBool false) [] _
                    (or_introl eq_refl)))).
    reflexivity.
  - apply (proj1 (proj2 (proj2 (homeyApiRequest_body test_env always_ok
                    "/api/devices/d1" "PUT" (VObj [("value", VBool false)]) [] _
                    (or_introl eq_refl))) ltac:(discriminate) eq_refl)).
Defined.

End RequestHelper.

(** *** toggle_device and list_devices: what reaches the upstream API *)

Section HandlerRequests.
Import Homey HomeyFacts.

(** The write phase with credentials, by the answer to the write. *)
Lemma write_phase_fst env up args v log :
  has_credentials env = true ->
  fst (write_phase env up args v log) =
  match up log (write_request env args v) with
  | Fulfilled w =>
      if ok w then
        match body_json w with
        | inr _ => inr (toggle_success args v)
        | inl t => inr (toggle_failure args t)
        end
      else
        match body_text w with
        | inr errorText =>
            inr (toggle_failure args (ThrownError (failure_message w errorText)))
        | inl t => inr (toggle_failure args t)
        end
  | Rejected t => inr (toggle_failure args t)
  end.
Proof.
  intros Hc. unfold write_phase, request_outcome. rewrite Hc. cbv zeta.
  fold (write_request env args v).
  destruct (up log _) as [w|t];
    [destruct (ok w); [destruct (body_json w) | destruct (body_text w)]|];
    reflexivity.
Qed.

Lemma list_devices_issued env up log :
  issued log (snd (list_devices env up log)) =
  if has_credentials env then [list_exchange env up log] else [].
Proof.
  rewrite list_devices_run. unfold list_outcome.
  pose proof (request_outcome_issued env up "/api/devices" "GET" VUndefined log)
    as I.
  destruct (request_outcome env up "/api/devices" "GET" VUndefined log)
    as [[e|data] log1]; cbn [snd] in *; [exact I|].
  destruct (read data "result") as [e|result]; [exact I|].
  destruct (map_devices result); exact I.
Qed.

(** The calls of [fetch] of one [toggle_device], case by case. *)
Lemma toggle_device_shape env up args log :
  (issued log (snd (toggle_device env up args log)) = [] /\
   (truthy (optional_value (deviceId args)) = false \/
    has_credentials env = false)) \/
  (truthy (optional_value (deviceId args)) = true /\
   has_credentials env = true /\
   ((exists v, value args = Some v /\
       toggle_device env up args log = write_phase env up args v log /\
       issued log (snd (toggle_device env up args log)) =
         [write_exchange env up args v log]) \/
    (value args = None /\
     issued log (snd (toggle_device env up args log)) =
       [read_exchange env up args log] /\
     exists t, fst (toggle_device env up args log) = inr (toggle_failure args t)) \/
    (value args = None /\
     exists r data b,
       up log (read_request env args) = Fulfilled r /\
       ok r = true /\
       body_json r = inr data /\
       current_value data (capability_of args) = inr (VBool b) /\
       toggle_device env up args log =
         write_phase env up args (PBool (negb b))
           (log ++ [read_exchange env up args log]) /\
       issued log (snd (toggle_device env up args log)) =
         [read_exchange env up args log;
          write_exchange env up args (PBool (negb b))
            (log ++ [read_exchange env up args log])]))).
Proof.
  rewrite toggle_device_run. unfold toggle_outcome.
  destruct (truthy (optional_value (deviceId args))) eqn:Hid; cbn [negb].
  2:{ left. cbn [snd]. rewrite issued_same. auto. }
  destruct (has_credentials env) eqn:Hc.
  2:{ left. split; [|auto].
      destruct (value args) as [v|].
      - unfold write_phase, request_outcome. rewrite Hc. cbn [snd].
        apply issued_same.
      - unfold request_outcome. rewrite Hc. cbn [snd]. apply issued_same. }
  right. split; [reflexivity|]. split; [reflexivity|].
  destruct (value args) as [v|].
  { left. exists v. split; [reflexivity|]. split; [reflexivity|].
    rewrite write_phase_issues by assumption. apply issued_app. }
  right. unfold request_outcome at 1 2 3 4. rewrite Hc. cbv zeta.
  fold (read_request env args). fold (read_exchange env up args log).
  assert (Stop : forall t,
    @None Primitive = None /\
    issued log (snd (@inr Thrown Envelope (toggle_failure args t),
                     (log ++ [read_exchange env up args log])%list)) =
      [read_exchange env up args log] /\
    exists t0, fst (@inr Thrown Envelope (toggle_failure args t),
                    (log ++ [read_exchange env up args log])%list) =
               inr (toggle_failure args t0)).
  { intros t. split; [reflexivity|]. cbn [fst snd]. rewrite issued_app.
    split; [reflexivity|]. exists t. reflexivity. }
  destruct (up log (read_request env args)) as [r|t] eqn:Hup;
    [destruct (ok r) eqn:Hok; [|destruct (body_text r)]|];
    try (left; apply Stop).
  destruct (body_json r) as [e|data] eqn:Hjson; [left; apply Stop|].
  destruct (current_value data (capability_of args)) as [e|cur] eqn:Hcur;
    [left; apply Stop|].
  destruct cur; try (left; apply Stop).
  right. split; [reflexivity|]. exists r, data, b.
  repeat (split; [reflexivity || assumption|]).
  rewrite write_phase_issues by assumption. apply issued_app2.
Qed.

(** X5. [list_devices] calls [fetch] exactly once when the credentials are
    set (GET on [/api/devices], without a body) and never otherwise;
    [toggle_device] calls it at most twice, at most once when a value is
    given, and only for the device of the call: the read of
    [/api/devices/{deviceId}] or the write of
    [/api/devices/{deviceId}/capabilities/{capability}]. *)
Theorem handlers_request_budget env up log :
  issued log (snd (list_devices env up log)) =
    (if has_credentials env then [list_exchange env up log] else []) /\
  method (list_request env) = "GET" /\
  url (list_request env) = HOMEY_API_URL env ++ "/api/devices" /\
  body (list_request env) = None /\
  (forall args,
     length (issued log (snd (toggle_device env up args log))) <= 2 /\
     (value args <> None ->
      length (issued log (snd (toggle_device env up args log))) <= 1) /\
     (forall x,
        In x (issued log (snd (toggle_device env up args log))) ->
        (method (request x) = "GET" /\
         url (request x) =
           HOMEY_API_URL env ++ "/api/devices/" ++ optional_toString (deviceId args))
        \/
        (method (request x) = "PUT" /\
         url (request x) =
           HOMEY_API_URL env ++ "/api/devices/" ++
           optional_toString (deviceId args) ++ "/capabilities/" ++
           capability_of args))).
Proof.
  split; [apply list_devices_issued|].
  repeat (split; [reflexivity|]).
  intros args.
  destruct (toggle_device_shape env up args log)
    as [[E _] | [_ [_ [[v [Hv [_ E]]] | [[Hv [E _]] | [Hv [r [d [b [_ [_ [_ [_ [_ E]]]]]]]]]]]]]];
    rewrite E; cbn [length In].
  - split; [lia|]. split; [lia|]. intros x [].
  - split; [lia|]. split; [lia|]. intros x [<- | []]. right. split; reflexivity.
  - split; [lia|]. split; [intros N; contradiction|].
    intros x [<- | []]. left. split; reflexivity.
  - split; [lia|]. split; [intros N; contradiction|].
    intros x [<- | [<- | []]]; [left | right]; split; reflexivity.
Qed.

Lemma handlers_request_budget_witness :
  length (issued [] (snd (toggle_device test_env always_ok set_device_1 []))) <= 1 /\
  (method (request (write_exchange test_env always_ok set_device_1 (PBool true) []))
     = "PUT" /\
   url (request (write_exchange test_env always_ok set_device_1 (PBool true) []))
     = "https://test-api.homey.com/api/devices/device-1/capabilities/onoff").
Proof.
  destruct (proj2 (proj2 (proj2 (proj2
              (handlers_request_budget test_env always_ok []))))
              set_device_1) as [_ [A B]].
  split.
  - apply A. discriminate.
  - destruct (B (write_exchange test_env always_ok set_device_1 (PBool true) [])
                (or_introl eq_refl)) as [[M _] | [M U]].
    + discriminate M.
    + split; [exact M | exact U].
Defined.

(** X6. [toggle_device] never writes a value it does not know: the value of
    every PUT it issues is the [value] argument, or, when there is none, the
    negation of the boolean that the read of the same call returned in an ok
    answer. *)
Theorem toggle_device_writes_known_value env up args log y :
  In y (issued log (snd (toggle_device env up args log))) ->
  is_write y = true ->
  (exists v, value args = Some v /\ request y = write_request env args v) \/
  (value args = None /\
   exists r data b,
     up log (read_request env args) = Fulfilled r /\
     ok r = true /\
     body_json r = inr data /\
     current_value data (capability_of args) = inr (VBool b) /\
     request y = write_request env args (PBool (negb b)) /\
     body (request y) =
       Some ("{" ++ QuoteJSONString "value" ++ ":" ++ Boolean_toString (negb b) ++ "}")).
Proof.
  intros Hin Hw.
  destruct (toggle_device_shape env up args log)
    as [[E _] | [_ [_ [[v [Hv [_ E]]] | [[Hv [E _]] | [Hv [r [d [b [H1 [H2 [H3 [H4 [_ E]]]]]]]]]]]]]];
    rewrite E in Hin; cbn [In] in Hin.
  - contradiction.
  - destruct Hin as [<- | []]. left. exists v. split; [exact Hv | reflexivity].
  - destruct Hin as [<- | []]. discriminate Hw.
  - destruct Hin as [<- | [<- | []]]; [discriminate Hw|].
    right. split; [exact Hv|]. exists r, d, b.
    repeat (split; [assumption || reflexivity|]).
    cbn [write_exchange request]. unfold write_request, build_request.
    cbn [body Primitive_value]. destruct b; reflexivity.
Qed.

Lemma toggle_device_writes_known_value_witness :
  (exists v, value toggle_device_1 = Some v /\
     request (write_exchange test_env off_then_ok toggle_device_1 (PBool true)
                [read_exchange test_env off_then_ok toggle_device_1 []]) =
     write_request test_env toggle_device_1 v) \/
  (value toggle_device_1 = None /\
   exists r data b,
     off_then_ok [] (read_request test_env toggle_device_1) = Fulfilled r /\
     ok r = true /\
     body_json r = inr data /\
     current_value data (capability_of toggle_device_1) = inr (VBool b) /\
     request (write_exchange test_env off_then_ok toggle_device_1 (PBool true)
                [read_exchange test_env off_then_ok toggle_device_1 []]) =
     write_request test_env toggle_device_1 (PBool (negb b)) /\
     body (request (write_exchange test_env off_then_ok toggle_device_1
                      (PBool true)
                      [read_exchange test_env off_then_ok toggle_device_1 []])) =
       Some ("{" ++ QuoteJSONString "value" ++ ":" ++ Boolean_toString (negb b) ++ "}")).
Proof.
  apply (toggle_device_writes_known_value test_env off_then_ok toggle_device_1 []).
  - right. left. reflexivity.
  - reflexivity.
Defined.

(** What an envelope of [list_devices] without [isError] tells. *)
Lemma list_devices_success_inv env up log e :
  fst (list_devices env up log) = inr e ->
  isError e = None ->
  exists r data items devices,
    has_credentials env = true /\
    up log (list_request env) = Fulfilled r /\
    ok r = true /\
    body_json r = inr data /\
    get data "result" = VArr items /\
    map_throwing normalize_device items = inr devices /\
    e = list_success devices.
Proof.
  intros He Herr.
  rewrite list_devices_run in He. unfold list_outcome, request_outcome in He.
  destruct (has_credentials env).
  2:{ cbn [fst] in He. inversion He; subst. discriminate Herr. }
  cbv zeta in He. fold (list_request env) in He.
  destruct (up log (list_request env)) as [r|t] eqn:Hup.
  2:{ cbn [fst] in He. inversion He; subst. discriminate Herr. }
  destruct (ok r) eqn:Hok.
  2:{ destruct (body_text r); cbn [fst] in He; inversion He; subst;
      discriminate Herr. }
  destruct (body_json r) as [t|data] eqn:Hjson.
  { cbn [fst] in He. inversion He; subst. discriminate Herr. }
  unfold read in He. destruct (nullish data) eqn:Hn.
  { cbn [fst] in He. inversion He; subst. discriminate Herr. }
  destruct (get data "result") as [| | | | |items|] eqn:Hres;
    cbn [map_devices fst] in He;
    try (inversion He; subst; discriminate Herr).
  destruct (map_throwing normalize_device items) as [t|devices] eqn:Hmap;
    cbn [fst] in He; inversion He; subst; [discriminate Herr|].
  exists r, data, items, devices. auto 10.
Qed.

(** X7. A success envelope is returned only for an acknowledged request:
    when [toggle_device] returns an envelope without [isError], the last call
    of [fetch] is the PUT of the reported value and its answer is ok; when
    [list_devices] does, its one request got an ok answer whose JSON has an
    array [result]. *)
Theorem success_means_acknowledged env up log :
  (forall args e,
     fst (toggle_device env up args log) = inr e ->
     isError e = None ->
     exists v before y w,
       issued log (snd (toggle_device env up args log)) = (before ++ [y])%list /\
       request y = write_request env args v /\
       outcome y = Fulfilled w /\
       ok w = true /\
       e = toggle_success args v) /\
  (forall e,
     fst (list_devices env up log) = inr e ->
     isError e = None ->
     exists r data items devices,
       issued log (snd (list_devices env up log)) = [list_exchange env up log] /\
       up log (list_request env) = Fulfilled r /\
       ok r = true /\
       body_json r = inr data /\
       get data "result" = VArr items /\
       map_throwing normalize_device items = inr devices /\
       e = list_success devices).
Proof.
  split.
  - intros args e He Herr.
    assert (W : forall v log0,
      has_credentials env = true ->
      fst (write_phase env up args v log0) = inr e ->
      exists w, outcome (write_exchange env up args v log0) = Fulfilled w /\
                ok w = true /\ e = toggle_success args v).
    { intros v log0 Hc H. rewrite write_phase_fst in H by assumption.
      cbn [write_exchange outcome].
      destruct (up log0 (write_request env args v)) as [w|t].
      - destruct (ok w) eqn:Hok.
        + destruct (body_json w); inversion H; subst; [discriminate Herr|].
          exists w. auto.
        + destruct (body_text w); inversion H; subst; discriminate Herr.
      - inversion H; subst. discriminate Herr. }
    destruct (toggle_device_shape env up args log)
      as [[E D] | [Hid [Hc [[v [Hv [R E]]] | [[Hv [E [t F]]] | [Hv [r [d [b [_ [_ [_ [_ [R E]]]]]]]]]]]]]].
    + exfalso. rewrite toggle_device_run in He. unfold toggle_outcome in He.
      destruct D as [D | D].
      * rewrite D in He. cbn [negb fst] in He. inversion He; subst.
        discriminate Herr.
      * destruct (negb (truthy (optional_value (deviceId args)))).
        { cbn [fst] in He. inversion He; subst. discriminate Herr. }
        unfold write_phase, request_outcome in He. rewrite D in He.
        destruct (value args); cbn [fst] in He; inversion He; subst;
          discriminate Herr.
    + rewrite R in He. destruct (W v log Hc He) as [w [H1 [H2 H3]]].
      exists v, [], (write_exchange env up args v log), w.
      rewrite E. repeat (split; [reflexivity || assumption|]). exact H3.
    + exfalso. rewrite F in He. inversion He; subst. discriminate Herr.
    + rewrite R in He.
      destruct (W (PBool (negb b)) _ Hc He) as [w [H1 [H2 H3]]].
      exists (PBool (negb b)), [read_exchange env up args log],
        (write_exchange env up args (PBool (negb b))
           (log ++ [read_exchange env up args log])), w.
      rewrite E. repeat (split; [reflexivity || assumption|]). exact H3.
  - intros e He Herr.
    destruct (list_devices_success_inv env up log e He Herr)
      as [r [data [items [devices [Hc H]]]]].
    rewrite list_devices_issued, Hc. exists r, data, items, devices.
    split; [reflexivity | exact H].
Qed.

Lemma success_means_acknowledged_witness :
  (exists v before y w,
     issued [] (snd (toggle_device test_env off_then_ok toggle_device_1 [])) =
       (before ++ [y])%list /\
     request y = write_request test_env toggle_device_1 v /\
     outcome y = Fulfilled w /\
     ok w = true /\
     toggle_success toggle_device_1 (PBool true) = toggle_success toggle_device_1 v) /\
  (exists r data items devices,
     issued [] (snd (list_devices test_env (answers (VObj [("result", VArr [])])) []))
       = [list_exchange test_env (answers (VObj [("result", VArr [])])) []] /\
     answers (VObj [("result", VArr [])]) [] (list_request test_env) = Fulfilled r /\
     ok r = true /\
     body_json r = inr data /\
     get data "result" = VArr items /\
     map_throwing normalize_device items = inr devices /\
     list_success [] = list_success devices).
Proof.
  split.
  - apply (proj1 (success_means_acknowledged test_env off_then_ok [])
             toggle_device_1 (toggle_success toggle_device_1 (PBool true)));
      reflexivity.
  - apply (proj2 (success_means_acknowledged test_env
                    (answers (VObj [("result", VArr [])])) [])
             (list_success [])); reflexivity.
Defined.

(** X8. A call with a value, a deviceId and credentials issues one request,
    the PUT whose body is the JSON of [{ value }] with the value as given
    (also when it is false, 0 or the empty string); when the answer is ok
    and has a JSON body, the envelope reports that value and the message
    [Successfully set <capability> to <value>]. *)
Theorem toggle_device_explicit_value env up args log v :
  value args = Some v ->
  truthy (optional_value (deviceId args)) = true ->
  has_credentials env = true ->
  issued log (snd (toggle_device env up args log)) =
    [write_exchange env up args v log] /\
  body (write_request env args v) =
    Some ("{" ++ QuoteJSONString "value" ++ ":" ++ Primitive_json v ++ "}") /\
  (forall w data,
     up log (write_request env args v) = Fulfilled w ->
     ok w = true ->
     body_json w = inr data ->
     toggle_device env up args log =
     (inr (text_envelope
             (JSON_stringify_object
                [("success", VBool true);
                 ("deviceId", optional_value (deviceId args));
                 ("capability", VStr (capability_of args));
                 ("value", Primitive_value v);
                 ("message",
                  VStr ("Successfully set " ++ capability_of args ++ " to " ++
                        Primitive_toString v))] 0)
             None),
      (log ++ [write_exchange env up args v log])%list)).
Proof.
  intros Hv Hid Hc.
  assert (R : toggle_device env up args log = write_phase env up args v log).
  { rewrite toggle_device_run. unfold toggle_outcome. rewrite Hid, Hv.
    reflexivity. }
  rewrite R. split; [|split].
  - rewrite write_phase_issues by assumption. apply issued_app.
  - unfold write_request, build_request. cbn [body].
    destruct v as [b|n|s]; [destruct b|destruct n|]; reflexivity.
  - intros w data Hw Hok Hjson.
    rewrite (write_phase_success env up args v log w data); try assumption.
    reflexivity.
Qed.

Lemma toggle_device_explicit_value_witness :
  body (write_request test_env dim_device_1 (PNum (NFrac "0.5"))) =
    Some ("{" ++ QuoteJSONString "value" ++ ":0.5}") /\
  fst (toggle_device test_env always_ok dim_device_1 []) =
    inr (text_envelope
           (JSON_stringify_object
              [("success", VBool true);
               ("deviceId", VStr "device-1");
               ("capability", VStr "dim");
               ("value", VNum (NFrac "0.5"));
               ("message", VStr "Successfully set dim to 0.5")] 0)
           None).
Proof.
  destruct (toggle_device_explicit_value test_env always_ok dim_device_1 []
              (PNum (NFrac "0.5")) eq_refl eq_refl eq_refl) as [_ [B S]].
  split; [exact B|].
  rewrite (S (ok_response (VObj [])) (VObj []) eq_refl eq_refl eq_refl).
  reflexivity.
Defined.

(** X9. The answer to the PUT is parsed as JSON like any other: when it is
    ok but [json()] rejects with an Error (an empty body, for one),
    [toggle_device] returns an isError envelope with the message of that
    rejection, although the write was sent and acknowledged.  This holds for
    the PUT of a call with a value and for the PUT that follows the read of
    a call without one. *)
Theorem toggle_device_unparseable_acknowledgement env up args log :
  truthy (optional_value (deviceId args)) = true ->
  has_credentials env = true ->
  (forall v w message,
     value args = Some v ->
     up log (write_request env args v) = Fulfilled w ->
     ok w = true ->
     body_json w = inl (ThrownError message) ->
     toggle_device env up args log =
     (inr (text_envelope
             (JSON_stringify_object
                [("error", VStr "Failed to toggle Homey device");
                 ("details", VStr message);
                 ("deviceId", optional_value (deviceId args))] 0)
             (Some true)),
      (log ++ [{| request := write_request env args v;
                  outcome := Fulfilled w |}])%list)) /\
  (forall r data b w message,
     value args = None ->
     up log (read_request env args) = Fulfilled r ->
     ok r = true ->
     body_json r = inr data ->
     current_value data (capability_of args) = inr (VBool b) ->
     up (log ++ [read_exchange env up args log])%list
        (write_request env args (PBool (negb b))) = Fulfilled w ->
     ok w = true ->
     body_json w = inl (ThrownError message) ->
     toggle_device env up args log =
     (inr (text_envelope
             (JSON_stringify_object
                [("error", VStr "Failed to toggle Homey device");
                 ("details", VStr message);
                 ("deviceId", optional_value (deviceId args))] 0)
             (Some true)),
      (log ++ [read_exchange env up args log;
               {| request := write_request env args (PBool (negb b));
                  outcome := Fulfilled w |}])%list)).
Proof.
  intros Hid Hc.
  assert (W : forall v log0 w message,
    up log0 (write_request env args v) = Fulfilled w ->
    ok w = true ->
    body_json w = inl (ThrownError message) ->
    write_phase env up args v log0 =
    (inr (toggle_failure args (ThrownError message)),
     (log0 ++ [{| request := write_request env args v;
                  outcome := Fulfilled w |}])%list)).
  { intros v log0 w message Hw Hok Hjson.
    unfold write_phase, request_outcome. rewrite Hc. cbv zeta.
    fold (write_request env args v). rewrite Hw, Hok, Hjson. reflexivity. }
  split.
  - intros v w message Hv Hw Hok Hjson.
    rewrite toggle_device_run. unfold toggle_outcome. rewrite Hid, Hv.
    cbn [negb]. rewrite (W v log w message Hw Hok Hjson). reflexivity.
  - intros r data b w message Hv Hr Hrok Hrjson Hcur Hw Hok Hjson.
    rewrite (toggle_device_after_read env up args log r data (VBool b));
      try assumption.
    rewrite (W _ _ w message Hw Hok Hjson).
    rewrite <- app_assoc. reflexivity.
Qed.

Lemma toggle_device_unparseable_acknowledgement_witness :
  (isError
     (match fst (toggle_device test_env no_content set_device_1 []) with
      | inr e => e
      | inl _ => text_envelope "" None
      end) = Some true /\
   length (snd (toggle_device test_env no_content set_device_1 [])) = 1) /\
  (isError
     (match fst (toggle_device test_env off_then_no_content toggle_device_1 [])
      with
      | inr e => e
      | inl _ => text_envelope "" None
      end) = Some true /\
   map (fun x => method (request x))
     (snd (toggle_device test_env off_then_no_content toggle_device_1 [])) =
   ["GET"; "PUT"]).
Proof.
  split.
  - rewrite (proj1 (toggle_device_unparseable_acknowledgement test_env no_content
               set_device_1 [] eq_refl eq_refl)
               (PBool true) no_content_response "Unexpected end of JSON input"
               eq_refl eq_refl eq_refl eq_refl).
    split; reflexivity.
  - rewrite (proj2 (toggle_device_unparseable_acknowledgement test_env
               off_then_no_content toggle_device_1 [] eq_refl eq_refl)
               (ok_response (device_answer "device-1" (VBool false)))
               (device_answer "device-1" (VBool false)) false
               no_content_response "Unexpected end of JSON input"
               eq_refl eq_refl eq_refl eq_refl eq_refl eq_refl eq_refl eq_refl).
    split; reflexivity.
Defined.

(** X10. A rejection of [fetch] is reported, not propagated: the handler
    returns an isError envelope whose details are the message of the Error,
    or [Unknown error] when the rejection is not an Error; a call of
    [toggle_device] whose read is rejected issues no PUT. *)
Theorem fetch_rejection_reported env up log reason :
  has_credentials env = true ->
  (up log (list_request env) = Rejected reason ->
   list_devices env up log =
   (inr (text_envelope
           (JSON_stringify_object
              [("error", VStr "Failed to list Homey devices");
               ("details",
                VStr (match reason with
                      | ThrownError message => message
                      | ThrownValue _ => "Unknown error"
                      end))] 0)
           (Some true)),
    (log ++ [{| request := list_request env; outcome := Rejected reason |}])%list)) /\
  (forall args,
     truthy (optional_value (deviceId args)) = true ->
     value args = None ->
     up log (read_request env args) = Rejected reason ->
     toggle_device env up args log =
     (inr (text_envelope
             (JSON_stringify_object
                [("error", VStr "Failed to toggle Homey device");
                 ("details",
                  VStr (match reason with
                        | ThrownError message => message
                        | ThrownValue _ => "Unknown error"
                        end));
                 ("deviceId", optional_value (deviceId args))] 0)
             (Some true)),
      (log ++ [{| request := read_request env args;
                  outcome := Rejected reason |}])%list)).
Proof.
  intros Hc. split.
  - intros Hup. rewrite list_devices_run. unfold list_outcome, request_outcome.
    rewrite Hc. cbv zeta. fold (list_request env). rewrite Hup. reflexivity.
  - intros args Hid Hv Hup. rewrite toggle_device_run. unfold toggle_outcome.
    rewrite Hid, Hv. cbn [negb]. unfold request_outcome. rewrite Hc. cbv zeta.
    fold (read_request env args). rewrite Hup. reflexivity.
Qed.

Lemma fetch_rejection_reported_witness :
  payload_text
    (match fst (list_devices test_env (rejecting (ThrownError "fetch failed")) [])
     with inr e => e | inl _ => text_envelope "" None end) =
    JSON_stringify_object
      [("error", VStr "Failed to list Homey devices");
       ("details", VStr "fetch failed")] 0 /\
  payload_text
    (match fst (toggle_device test_env (rejecting (ThrownValue (VStr "offline")))
                  toggle_d1 [])
     with inr e => e | inl _ => text_envelope "" None end) =
    JSON_stringify_object
      [("error", VStr "Failed to toggle Homey device");
       ("details", VStr "Unknown error");
       ("deviceId", VStr "d1")] 0.
Proof.
  split.
  - rewrite (proj1 (fetch_rejection_reported test_env
               (rejecting (ThrownError "fetch failed")) []
               (ThrownError "fetch failed") eq_refl) eq_refl).
    reflexivity.
  - rewrite (proj2 (fetch_rejection_reported test_env
               (rejecting (ThrownValue (VStr "offline"))) []
               (ThrownValue (VStr "offline")) eq_refl)
               toggle_d1 eq_refl eq_refl eq_refl).
    reflexivity.
Defined.

End HandlerRequests.

(** *** list_devices: the devices it returns *)

Section Normalization.
Import Homey HomeyFacts.

Lemma or_else_truthy (a b : JsValue) :
  truthy b = true -> truthy (or_else a b) = true.
Proof.
  intros H. unfold or_else. destruct (truthy a) eqn:E; [exact E | exact H].
Qed.

Lemma normalize_device_inv (device normalized : JsValue) :
  normalize_device device = inr normalized ->
  nullish device = false /\
  normalized =
    VObj [("id", get device "id");
          ("name", get device "name");
          ("zone", or_else (read_opt (get device "zone") "name") (VStr "Unknown"));
          ("class", or_else (get device "class") (VStr "Unknown"));
          ("capabilities", or_else (get device "capabilities") (VArr []));
          ("state", or_else (get device "capabilitiesObj") (VObj []))].
Proof.
  unfold normalize_device, read. destruct (nullish device); cbn [bind_sum].
  - discriminate.
  - intros H. inversion H. split; reflexivity.
Qed.

Lemma map_throwing_nth {A B} (f : A -> Thrown + B) (l : list A) (l' : list B)
  (da : A) (db : B) (i : nat) :
  map_throwing f l = inr l' -> i < length l ->
  f (nth i l da) = inr (nth i l' db).
Proof.
  revert l' i. induction l as [|x l IH]; intros l' i H Hi; [cbn in Hi; lia|].
  cbn in H. destruct (f x) as [e|y] eqn:Fx; [discriminate|]. cbn in H.
  destruct (map_throwing f l) as [e|ys]; [discriminate|]. cbn in H.
  inversion H; subst. destruct i as [|i]; [exact Fx|].
  cbn. apply IH; [reflexivity | cbn in Hi; lia].
Qed.

Lemma map_throwing_fails (items : list JsValue) :
  Exists (fun device => nullish device = true) items ->
  exists t, map_throwing normalize_device items = inl t.
Proof.
  induction 1 as [x l Hx | x l _ [t IH]]; cbn.
  - unfold normalize_device at 1, read. rewrite Hx. cbn. eexists. reflexivity.
  - destruct (normalize_device x) as [e|y]; cbn; [eexists; reflexivity|].
    rewrite IH. cbn. eexists. reflexivity.
Qed.

(** X11. In an envelope of [list_devices] without [isError] the devices are
    the upstream devices in their order, each with its [id] and [name] as
    they came and with [zone], [class], [capabilities] and [state] that are
    never missing or empty: the zone name and the class default to
    [Unknown], the capabilities to the empty list and the state to the
    empty object. *)
Theorem list_devices_normalization env up log e :
  fst (list_devices env up log) = inr e ->
  isError e = None ->
  exists r data items devices,
    up log (list_request env) = Fulfilled r /\
    body_json r = inr data /\
    get data "result" = VArr items /\
    payload_text e =
      JSON_stringify_object
        [("devices", VArr devices);
         ("count", VNum (NInt (Z.of_nat (length items))))] 2 /\
    length devices = length items /\
    forall i, i < length items ->
      nth i devices VUndefined =
        VObj [("id", get (nth i items VUndefined) "id");
              ("name", get (nth i items VUndefined) "name");
              ("zone",
               or_else (read_opt (get (nth i items VUndefined) "zone") "name")
                 (VStr "Unknown"));
              ("class",
               or_else (get (nth i items VUndefined) "class") (VStr "Unknown"));
              ("capabilities",
               or_else (get (nth i items VUndefined) "capabilities") (VArr []));
              ("state",
               or_else (get (nth i items VUndefined) "capabilitiesObj") (VObj []))]
      /\
      truthy (get (nth i devices VUndefined) "zone") = true /\
      truthy (get (nth i devices VUndefined) "class") = true /\
      truthy (get (nth i devices VUndefined) "capabilities") = true /\
      truthy (get (nth i devices VUndefined) "state") = true.
Proof.
  intros He Herr.
  destruct (list_devices_success_inv env up log e He Herr)
    as [r [data [items [devices [_ [Hup [_ [Hjson [Hres [Hmap ->]]]]]]]]]].
  pose proof (map_throwing_length _ _ _ Hmap) as L.
  exists r, data, items, devices.
  repeat (split; [assumption|]).
  split; [unfold list_success; rewrite L; reflexivity|].
  split; [exact L|].
  intros i Hi.
  pose proof (map_throwing_nth normalize_device items devices VUndefined
                VUndefined i Hmap Hi) as N.
  apply normalize_device_inv in N. destruct N as [_ N]. rewrite N.
  split; [reflexivity|]. cbn [get lookup String.eqb Ascii.eqb Bool.eqb].
  repeat split; apply or_else_truthy; reflexivity.
Qed.

Lemma list_devices_normalization_witness :
  exists r data items devices,
    answers (VObj [("result", VArr [VObj [("id", VStr "bare")]])]) []
      (list_request test_env) = Fulfilled r /\
    body_json r = inr data /\
    get data "result" = VArr items /\
    payload_text
      (list_success
         [VObj [("id", VStr "bare"); ("name", VUndefined);
                ("zone", VStr "Unknown"); ("class", VStr "Unknown");
                ("capabilities", VArr []); ("state", VObj [])]]) =
      JSON_stringify_object
        [("devices", VArr devices);
         ("count", VNum (NInt (Z.of_nat (length items))))] 2 /\
    length devices = length items.
Proof.
  destruct (list_devices_normalization test_env
              (answers (VObj [("result", VArr [VObj [("id", VStr "bare")]])])) []
              (list_success
                 [VObj [("id", VStr "bare"); ("name", VUndefined);
                        ("zone", VStr "Unknown"); ("class", VStr "Unknown");
                        ("capabilities", VArr []); ("state", VObj [])]])
              eq_refl eq_refl)
    as [r [data [items [devices [H1 [H2 [H3 [H4 [H5 _]]]]]]]]].
  exists r, data, items, devices. auto.
Defined.

(** X12. [list_devices] returns all devices or none: when the ok answer has
    no array under [result], or the array holds a null, the handler
    returns the isError envelope of [list_devices] after its one request,
    and no partial list. *)
Theorem list_devices_all_or_nothing env up log r data :
  has_credentials env = true ->
  up log (list_request env) = Fulfilled r ->
  ok r = true ->
  body_json r = inr data ->
  (forall items, get data "result" <> VArr items) \/
  (exists items,
     get data "result" = VArr items /\
     Exists (fun device => nullish device = true) items) ->
  exists details,
    list_devices env up log =
    (inr (text_envelope
            (JSON_stringify_object
               [("error", VStr "Failed to list Homey devices");
                ("details", VStr details)] 0)
            (Some true)),
     (log ++ [list_exchange env up log])%list).
Proof.
  intros Hc Hup Hok Hjson H.
  rewrite list_devices_run. unfold list_outcome, request_outcome.
  rewrite Hc. cbv zeta. fold (list_request env). fold (list_exchange env up log).
  rewrite Hup, Hok, Hjson. unfold read.
  destruct (nullish data); [eexists; reflexivity|].
  destruct H as [H | [items [H E]]].
  - destruct (get data "result") as [| | | | |items|];
      try (eexists; reflexivity).
    destruct (H items eq_refl).
  - rewrite H. cbn [map_devices].
    destruct (map_throwing_fails items E) as [t ->].
    eexists. reflexivity.
Qed.

Lemma list_devices_all_or_nothing_witness :
  (exists details,
     list_devices test_env (answers (VObj [])) [] =
     (inr (text_envelope
             (JSON_stringify_object
                [("error", VStr "Failed to list Homey devices");
                 ("details", VStr details)] 0)
             (Some true)),
      [list_exchange test_env (answers (VObj [])) []])) /\
  (exists details,
     list_devices test_env
       (answers (VObj [("result", VArr (test_devices ++ [VNull]))])) [] =
     (inr (text_envelope
             (JSON_stringify_object
                [("error", VStr "Failed to list Homey devices");
                 ("details", VStr details)] 0)
             (Some true)),
      [list_exchange test_env
         (answers (VObj [("result", VArr (test_devices ++ [VNull]))])) []])).
Proof.
  split.
  - apply (list_devices_all_or_nothing test_env (answers (VObj [])) []
             (ok_response (VObj [])) (VObj [])); try reflexivity.
    left. intros items. discriminate.
  - apply (list_devices_all_or_nothing test_env
             (answers (VObj [("result", VArr (test_devices ++ [VNull]))])) []
             (ok_response (VObj [("result", VArr (test_devices ++ [VNull]))]))
             (VObj [("result", VArr (test_devices ++ [VNull]))]));
      try reflexivity.
    right. exists (test_devices ++ [VNull])%list. split; [reflexivity|].
    apply Exists_app. right. constructor. reflexivity.
Defined.

(** X13. The text of the prompt [control-device] names the device and the
    action as they were given, with [toggle] for an omitted action; it
    begins with [Please <action> the Homey device named]. *)
Theorem control_device_names_device_and_action (deviceName : string)
  (action : option string) :
  includes (control_device deviceName action) deviceName = true /\
  includes (control_device deviceName action)
    (match action with Some a => a | None => "toggle" end) = true /\
  String.prefix
    ("Please " ++ (match action with Some a => a | None => "toggle" end) ++
     " the Homey device named ")
    (control_device deviceName action) = true.
Proof.
  unfold control_device. cbv zeta.
  set (a := match action with Some a => a | None => "toggle" end).
  split; [|split].
  - apply includes_after, includes_after, includes_after, includes_after,
      includes_here.
  - apply includes_after, includes_here.
  - assert (E : forall rest,
      "Please " ++ a ++ " the Homey device named " ++ rest =
      ("Please " ++ a ++ " the Homey device named ") ++ rest).
    { intros rest. cbn. do 7 f_equal.
      induction a as [|c a IH]; [reflexivity|]. cbn. f_equal. exact IH. }
    rewrite E. apply prefix_append.
Qed.

End Normalization.

(** *** The class HomeyApiClient and the start of its script *)

Section MockClient.
Import HomeyMock.

Lemma authenticated_twice this : authenticated (authenticated this) = authenticated this.
Proof.
  unfold authenticated.
  destruct (negb (truthy (Homey.optional_value (accessToken this)))) eqn:E;
    [reflexivity | rewrite E; reflexivity].
Qed.

(** The device [devices.find] returns from the devices of the class. *)
Lemma find_device_mock (d : string) :
  find_device mock_devices (Some d) =
  if String.eqb "device-1" d then nth 0 mock_devices VUndefined
  else if String.eqb "device-2" d then nth 1 mock_devices VUndefined
  else if String.eqb "device-3" d then nth 2 mock_devices VUndefined
  else VUndefined.
Proof.
  unfold find_device, mock_devices. cbn [find nth].
  change (get (VObj (("id", VStr "device-1") :: _)) "id") with (VStr "device-1").
  change (get (VObj (("id", VStr "device-2") :: _)) "id") with (VStr "device-2").
  change (get (VObj (("id", VStr "device-3") :: _)) "id") with (VStr "device-3").
  cbn [strict_equals].
  destruct (String.eqb "device-1" d); [reflexivity|].
  destruct (String.eqb "device-2" d); [reflexivity|].
  destruct (String.eqb "device-3" d); reflexivity.
Qed.

Lemma HomeyApiClient_toggleDevice_run deviceId this :
  HomeyApiClient_toggleDevice deviceId this =
  (toggleDevice_result deviceId, authenticated this).
Proof.
  unfold HomeyApiClient_toggleDevice, HomeyApiClient_listDevices.
  unfold bind at 1. rewrite ensure_authenticated_run.
  unfold bind at 1. unfold bind at 1. rewrite ensure_authenticated_run.
  unfold ret at 1. rewrite authenticated_twice.
  unfold toggleDevice_result.
  destruct deviceId as [d|]; [|reflexivity].
  rewrite find_device_mock.
  destruct (String.eqb "device-1" d); [reflexivity|].
  destruct (String.eqb "device-2" d); [reflexivity|].
  destruct (String.eqb "device-3" d); reflexivity.
Qed.

(** X14. Every method of the class leaves the client with an access token:
    it authenticates first when the token is null or empty, leaves a client
    that has a token as it is, and never changes the client id, the client
    secret or the API URL, also when [toggleDevice] throws. *)
Theorem HomeyApiClient_keeps_token this deviceId this' :
  this' = snd (HomeyApiClient_listDevices this) \/
  this' = snd (HomeyApiClient_toggleDevice deviceId this) \/
  this' = snd (HomeyApiClient_listFlows this) ->
  clientId this' = clientId this /\
  clientSecret this' = clientSecret this /\
  apiUrl this' = apiUrl this /\
  truthy (Homey.optional_value (accessToken this')) = true /\
  (truthy (Homey.optional_value (accessToken this)) = true -> this' = this) /\
  (truthy (Homey.optional_value (accessToken this)) = false ->
   accessToken this' = Some "MOCK_TOKEN_REPLACE_IN_PRODUCTION").
Proof.
  intros H.
  assert (E : this' = authenticated this).
  { destruct H as [-> | [-> | ->]].
    - rewrite HomeyApiClient_listDevices_run. reflexivity.
    - rewrite HomeyApiClient_toggleDevice_run. reflexivity.
    - rewrite HomeyApiClient_listFlows_run. reflexivity. }
  subst this'. unfold authenticated.
  destruct (truthy (Homey.optional_value (accessToken this))) eqn:T; cbn [negb].
  - split; [reflexivity|]. split; [reflexivity|]. split; [reflexivity|].
    split; [exact T|]. split; [reflexivity | intros N; discriminate N].
  - cbn. split; [reflexivity|]. split; [reflexivity|]. split; [reflexivity|].
    split; [reflexivity|]. split; [intros N; discriminate N | reflexivity].
Qed.

Lemma HomeyApiClient_keeps_token_witness :
  accessToken (snd (HomeyApiClient_toggleDevice (Some "no-such-device")
                      (new_HomeyApiClient "id" "secret" "https://api.athom.com")))
  = Some "MOCK_TOKEN_REPLACE_IN_PRODUCTION" /\
  clientSecret (snd (HomeyApiClient_toggleDevice (Some "no-such-device")
                       (new_HomeyApiClient "id" "secret" "https://api.athom.com")))
  = "secret".
Proof.
  destruct (HomeyApiClient_keeps_token
              (new_HomeyApiClient "id" "secret" "https://api.athom.com")
              (Some "no-such-device") _ (or_intror (or_introl eq_refl)))
    as [_ [S [_ [_ [_ T]]]]].
  split; [apply T; reflexivity | exact S].
Defined.

(** X15. [toggleDevice] of the class succeeds for [device-1] only, with
    previous state true and new state false; for [device-2] and [device-3]
    it throws [Device <id> does not support onoff capability] and for every
    other deviceId [Device not found: <id>].  The handler [toggle_device]
    turns the result into an envelope without [isError] and each Error into
    [{ error: <message> }] with [isError: true].  The toggle is not stored:
    a second call returns the same envelope. *)
Theorem mock_toggle_device_outcomes this deviceId :
  fst (HomeyApiClient_toggleDevice deviceId this) =
    match deviceId with
    | Some d =>
        if String.eqb "device-1" d then
          inr [("deviceId", VStr d);
               ("deviceName", VStr "Living Room Light");
               ("previousState", VBool true);
               ("newState", VBool false)]
        else if String.eqb "device-2" d || String.eqb "device-3" d then
          inl (ThrownError ("Device " ++ d ++ " does not support onoff capability"))
        else inl (ThrownError ("Device not found: " ++ d))
    | None => inl (ThrownError "Device not found: undefined")
    end /\
  fst (toggle_device HomeyApiClient_api deviceId this) =
    inr (match deviceId with
         | Some d =>
             if String.eqb "device-1" d then
               text_envelope
                 (JSON_stringify_object
                    [("deviceId", VStr d);
                     ("deviceName", VStr "Living Room Light");
                     ("previousState", VBool true);
                     ("newState", VBool false)] 2)
                 None
             else if String.eqb "device-2" d || String.eqb "device-3" d then
               text_envelope
                 (JSON_stringify_object
                    [("error",
                      VStr ("Device " ++ d ++ " does not support onoff capability"))]
                    2)
                 (Some true)
             else
               text_envelope
                 (JSON_stringify_object
                    [("error", VStr ("Device not found: " ++ d))] 2)
                 (Some true)
         | None =>
             text_envelope
               (JSON_stringify_object
                  [("error", VStr "Device not found: undefined")] 2)
               (Some true)
         end) /\
  fst (toggle_device HomeyApiClient_api deviceId
         (snd (toggle_device HomeyApiClient_api deviceId this))) =
  fst (toggle_device HomeyApiClient_api deviceId this).
Proof.
  assert (H : forall this0,
    toggle_device HomeyApiClient_api deviceId this0 =
    (match toggleDevice_result deviceId with
     | inr result =>
         inr (text_envelope (JSON_stringify_object result 2) None)
     | inl (ThrownError message) =>
         inr (text_envelope
                (JSON_stringify_object [("error", VStr message)] 2) (Some true))
     | inl (ThrownValue v) => inl (ThrownValue v)
     end, authenticated this0)).
  { intros this0.
    unfold toggle_device, try_catch, toggle_device_try, bind.
    cbn [toggleDevice HomeyApiClient_api].
    rewrite HomeyApiClient_toggleDevice_run. unfold toggleDevice_result.
    destruct deviceId as [d|]; [|reflexivity].
    destruct (String.eqb "device-1" d); [reflexivity|].
    destruct (String.eqb "device-2" d || String.eqb "device-3" d); reflexivity. }
  split; [|split].
  - rewrite HomeyApiClient_toggleDevice_run. reflexivity.
  - rewrite H. unfold toggleDevice_result. cbn [fst].
    destruct deviceId as [d|]; [|reflexivity].
    destruct (String.eqb "device-1" d); [reflexivity|].
    destruct (String.eqb "device-2" d || String.eqb "device-3" d); reflexivity.
  - rewrite !H. reflexivity.
Qed.

(** The test [!CLIENT_ID || !CLIENT_SECRET] fails the validation exactly
    when CLIENT_ID or CLIENT_SECRET is unset or the empty string. *)
Lemma validate_environment_exit (CLIENT_ID CLIENT_SECRET : option string) :
  (validate_environment CLIENT_ID CLIENT_SECRET = Some 1%N <->
   Homey.unset CLIENT_ID \/ Homey.unset CLIENT_SECRET) /\
  (validate_environment CLIENT_ID CLIENT_SECRET = None <->
   exists id secret,
     CLIENT_ID = Some id /\ CLIENT_SECRET = Some secret /\
     id <> "" /\ secret <> "").
Proof.
  assert (T : forall o : option string,
    (truthy (Homey.optional_value o) = false <-> Homey.unset o) /\
    (truthy (Homey.optional_value o) = true <-> exists v, o = Some v /\ v <> "")).
  { intros [v|]; cbn; unfold Homey.unset.
    - destruct (String.eqb_spec v "") as [-> | N]; cbn; split; split.
      + auto.
      + reflexivity.
      + discriminate.
      + intros [v [E N]]. inversion E; subst. contradiction.
      + discriminate.
      + intros [E | E]; [discriminate | inversion E; contradiction].
      + intros _. exists v. auto.
      + reflexivity.
    - split; split; auto; try discriminate.
      intros [v [E _]]. discriminate. }
  unfold validate_environment.
  destruct (T CLIENT_ID) as [A1 A2], (T CLIENT_SECRET) as [B1 B2].
  destruct (truthy (Homey.optional_value CLIENT_ID)),
    (truthy (Homey.optional_value CLIENT_SECRET)); cbn [negb orb].
  - split; split; try discriminate.
    + intros [H | H]; [apply A1 in H | apply B1 in H]; discriminate.
    + intros _. destruct (proj1 A2 eq_refl) as [id [-> N1]].
      destruct (proj1 B2 eq_refl) as [secret [-> N2]].
      exists id, secret. auto.
    + reflexivity.
  - split; split; try reflexivity; try discriminate.
    + intros _. right. apply B1. reflexivity.
    + intros [id [secret [_ [E [_ N]]]]].
      assert (false = true) by (apply B2; exists secret; auto). discriminate.
  - split; split; try reflexivity; try discriminate.
    + intros _. left. apply A1. reflexivity.
    + intros [id [secret [E [_ [N _]]]]].
      assert (false = true) by (apply A2; exists id; auto). discriminate.
  - split; split; try reflexivity; try discriminate.
    + intros _. left. apply A1. reflexivity.
    + intros [id [secret [E [_ [N _]]]]].
      assert (false = true) by (apply A2; exists id; auto). discriminate.
Qed.

(** X16. When CLIENT_ID or CLIENT_SECRET is unset or the empty string, the
    script prints its three lines of diagnostics and exits with status 1
    having registered no tool and constructed no client.  When both hold a
    non-empty value it does not exit: it constructs the client from them and
    from the API URL (HOMEY_API_URL, or [https://api.athom.com] when that is
    unset or empty), without a token, and registers [list_devices],
    [toggle_device] and [list_flows], in this order. *)
Theorem script_exits_before_registering
  (CLIENT_ID CLIENT_SECRET env_HOMEY_API_URL : option string) :
  (Homey.unset CLIENT_ID \/ Homey.unset CLIENT_SECRET ->
   exit_status (run_script CLIENT_ID CLIENT_SECRET env_HOMEY_API_URL) = Some 1%N /\
   registered_tools (run_script CLIENT_ID CLIENT_SECRET env_HOMEY_API_URL) = [] /\
   homeyClient (run_script CLIENT_ID CLIENT_SECRET env_HOMEY_API_URL) = None /\
   stderr (run_script CLIENT_ID CLIENT_SECRET env_HOMEY_API_URL) =
     ["Error: Missing required environment variables.";
      "Please ensure CLIENT_ID and CLIENT_SECRET are set in your .env file or environment.";
      "See .env.example for reference."]) /\
  (forall id secret,
     CLIENT_ID = Some id -> CLIENT_SECRET = Some secret ->
     id <> "" -> secret <> "" ->
     exit_status (run_script CLIENT_ID CLIENT_SECRET env_HOMEY_API_URL) = None /\
     registered_tools (run_script CLIENT_ID CLIENT_SECRET env_HOMEY_API_URL) =
       ["list_devices"; "toggle_device"; "list_flows"] /\
     exists url,
       homeyClient (run_script CLIENT_ID CLIENT_SECRET env_HOMEY_API_URL) =
         Some {| clientId := id; clientSecret := secret; apiUrl := url;
                 accessToken := None |} /\
       (Homey.unset env_HOMEY_API_URL -> url = "https://api.athom.com") /\
       (forall u, env_HOMEY_API_URL = Some u -> u <> "" -> url = u)) /\
  (registered_tools (run_script CLIENT_ID CLIENT_SECRET env_HOMEY_API_URL) = [] <->
   exit_status (run_script CLIENT_ID CLIENT_SECRET env_HOMEY_API_URL) = Some 1%N).
Proof.
  destruct (validate_environment_exit CLIENT_ID CLIENT_SECRET) as [V1 V2].
  unfold run_script.
  destruct (validate_environment CLIENT_ID CLIENT_SECRET) as [code|] eqn:E.
  - assert (C : code = 1%N).
    { unfold validate_environment in E.
      destruct (negb (truthy (Homey.optional_value CLIENT_ID)) ||
                negb (truthy (Homey.optional_value CLIENT_SECRET)));
        inversion E; reflexivity. }
    subst code. cbn. split; [intros _; repeat split|]. split.
    + intros id secret H1 H2 N1 N2. exfalso.
      assert (A : Some 1%N = None) by (apply V2; exists id, secret; auto).
      discriminate A.
    + split; reflexivity.
  - cbn. split.
    + intros H. apply V1 in H. discriminate H.
    + split.
      * intros id secret -> -> N1 N2. split; [reflexivity|].
        split; [reflexivity|].
        exists (Homey.env_or env_HOMEY_API_URL "https://api.athom.com").
        split; [reflexivity|]. split.
        -- intros [-> | ->]; reflexivity.
        -- intros u -> N. unfold Homey.env_or, truthy_string.
           destruct (String.eqb_spec u "") as [Z | _];
             [contradiction | reflexivity].
      * split; intros H; discriminate H.
Qed.

Lemma script_exits_before_registering_witness :
  (exit_status (run_script (Some "client-id") (Some "") None) = Some 1%N /\
   registered_tools (run_script (Some "client-id") (Some "") None) = []) /\
  (registered_tools (run_script (Some "client-id") (Some "client-secret") None) =
     ["list_devices"; "toggle_device"; "list_flows"] /\
   homeyClient (run_script (Some "client-id") (Some "client-secret") None) =
     Some {| clientId := "client-id"; clientSecret := "client-secret";
             apiUrl := "https://api.athom.com"; accessToken := None |}).
Proof.
  split.
  - destruct (proj1 (script_exits_before_registering (Some "client-id") (Some "")
                       None) (or_intror (or_intror eq_refl))) as [A [B _]].
    split; [exact A | exact B].
  - destruct (proj1 (proj2 (script_exits_before_registering (Some "client-id")
                       (Some "client-secret") None))
                "client-id" "client-secret" eq_refl eq_refl
                ltac:(discriminate) ltac:(discriminate))
      as [_ [B [url [C [D _]]]]].
    split; [exact B|]. rewrite C, (D (or_introl eq_refl)). reflexivity.
Defined.

(** X17. The handlers of the script pass on what the client returns: for
    any client, [list_devices] answers the JSON of [{ devices }] (without a
    count), [list_flows] the JSON of [{ flows }] and [toggle_device] the JSON
    of the result object, indented by two and without [isError], and the
    client keeps the state its method left. *)
Theorem mock_handlers_pass_through {S} (api : HomeyApi S) (s s' : S) :
  (forall devices,
     listDevices api s = (inr devices, s') ->
     list_devices api s =
     (inr (text_envelope (JSON_stringify_object [("devices", VArr devices)] 2)
             None), s') /\
     serialized_keys [("devices", VArr devices)] = ["devices"]) /\
  (forall flows,
     listFlows api s = (inr flows, s') ->
     list_flows api s =
     (inr (text_envelope (JSON_stringify_object [("flows", VArr flows)] 2)
             None), s') /\
     serialized_keys [("flows", VArr flows)] = ["flows"]) /\
  (forall deviceId result,
     toggleDevice api deviceId s = (inr result, s') ->
     toggle_device api deviceId s =
     (inr (text_envelope (JSON_stringify_object result 2) None), s')).
Proof.
  split; [|split].
  - intros devices H. unfold list_devices, try_catch, list_devices_try, bind.
    rewrite H. split; reflexivity.
  - intros flows H. unfold list_flows, try_catch, list_flows_try, bind.
    rewrite H. split; reflexivity.
  - intros deviceId result H.
    unfold toggle_device, try_catch, toggle_device_try, bind.
    rewrite H. reflexivity.
Qed.

Lemma mock_handlers_pass_through_witness :
  list_flows HomeyApiClient_api
    (new_HomeyApiClient "id" "secret" "https://api.athom.com") =
  (inr (text_envelope (JSON_stringify_object [("flows", VArr mock_flows)] 2) None),
   authenticated (new_HomeyApiClient "id" "secret" "https://api.athom.com")) /\
  length mock_flows = 3.
Proof.
  split; [|reflexivity].
  apply (proj1 (proj2 (mock_handlers_pass_through HomeyApiClient_api
           (new_HomeyApiClient "id" "secret" "https://api.athom.com")
           (authenticated (new_HomeyApiClient "id" "secret" "https://api.athom.com"))))
           mock_flows).
  reflexivity.
Defined.

End MockClient.
